(** * Finance tracker: a shallow embedding of [backend/main.py]

    The service is a FastAPI application over a relational store with two
    tables (users, transactions), bcrypt password hashes and HS256 bearer
    tokens.  This file embeds the request handlers of [backend/main.py] as
    Rocq functions in a small state-and-exception monad over the store, and
    proves the ledger and authentication properties of the specification.

    Layout:
    - Python built-ins used by the handlers ([str.split], [str.lower],
      [sum], [round], [datetime]);
    - the libraries the handlers call (python-jose, passlib) as interfaces
      with their laws, and one executable instance of each;
    - the tables, the store and the handler monad;
    - the handlers, in source order;
    - the theorems. *)

From Stdlib Require Import ZArith List String Ascii Bool Lia.
From Stdlib Require Import Sorting.Sorted Sorting.Permutation.
From Stdlib Require Import Floats DecimalString DecimalZ.
Import ListNotations.
Local Open Scope Z_scope.

Set Implicit Arguments.

(* ================================================================== *)
(** * Python built-ins *)
(* ================================================================== *)

Module Py.

(** [str.isspace] on one character.  Header values reach the handlers
    as Latin-1 text, so a character is one [ascii]; the white space
    characters of that range are TAB..CR, FS..US, SPACE, NEL and NBSP. *)
Definition isspace (c : ascii) : bool :=
  let n := N_of_ascii c in
  (((9 <=? n) && (n <=? 13)) || ((28 <=? n) && (n <=? 32))
   || (n =? 133) || (n =? 160))%N.

(** [str.lower] on one character: A..Z and the Latin-1 capitals
    (0xC0..0xDE except the multiplication sign 0xD7) move up by 32. *)
Definition lower_char (c : ascii) : ascii :=
  let n := N_of_ascii c in
  if (((65 <=? n) && (n <=? 90))
      || ((192 <=? n) && (n <=? 222) && negb (n =? 215)))%N
  then ascii_of_N (n + 32) else c.

Fixpoint lower (s : string) : string :=
  match s with
  | EmptyString => EmptyString
  | String c s' => String (lower_char c) (lower s')
  end.

(** [s.split()] with no separator: the maximal runs of characters that
    are not white space, in order.  [cur] is the run being read. *)
Fixpoint split_from (cur : option string) (s : string) : list string :=
  match s with
  | EmptyString =>
      match cur with None => [] | Some w => [w] end
  | String c s' =>
      if isspace c then
        match cur with
        | None => split_from None s'
        | Some w => w :: split_from None s'
        end
      else
        match cur with
        | None => split_from (Some (String c EmptyString)) s'
        | Some w => split_from (Some (w ++ String c EmptyString)%string) s'
        end
  end.

Definition split (s : string) : list string := split_from None s.

(** ** Numbers: [int] and [float] *)

Inductive num : Type :=
| Int (z : Z)
| Float (f : float).

(** [float(z)], correctly rounded. *)
Definition float_of_int (z : Z) : float :=
  SF2Prim (binary_normalize prec emax z 0 false).

Definition to_float (x : num) : float :=
  match x with Int z => float_of_int z | Float f => f end.

(** [x - y]: exact on two ints, binary64 otherwise. *)
Definition sub (x y : num) : num :=
  match x, y with
  | Int a, Int b => Int (a - b)
  | _, _ => Float (PrimFloat.sub (to_float x) (to_float y))
  end.

(** The float routines of the interpreter that the handlers rely on
    and that differ between interpreter versions or are too long to
    restate here: the accumulation [sum] performs on floats, starting
    from [0.0]; [round(x, 2)] on a float; [repr] of a float. *)
Class FloatBuiltins : Type := {
  fsum : list float -> float;
  round2 : float -> float;
  float_repr : float -> string
}.

Section Builtins.
Context {FB : FloatBuiltins}.

(** [sum(xs)] over floats: the start value is the int [0], which is
    what comes back when there is nothing to add. *)
Definition sum (xs : list float) : num :=
  match xs with
  | [] => Int 0
  | _ :: _ => Float (fsum xs)
  end.

(** [round(x, 2)]: an int is returned as it is. *)
Definition round_2 (x : num) : num :=
  match x with
  | Int z => Int z
  | Float f => Float (round2 f)
  end.
End Builtins.

(** ** [datetime] *)

(** A [timedelta] and a fixed-offset [timezone] are a number of
    microseconds. *)
Definition timedelta (hours minutes : Z) : Z :=
  (hours * 60 + minutes) * 60 * 1000000.

(** A [datetime]: the wall-clock reading in microseconds since the
    epoch of the calendar, and the offset from UTC when it has one. *)
Record datetime : Type := {
  wall : Z;
  tzinfo : option Z
}.

(** [datetime.utcnow()] at the instant [t] (microseconds, UTC): naive. *)
Definition utcnow (t : Z) : datetime := {| wall := t; tzinfo := None |}.

(** [datetime.now(tz)] at the instant [t]. *)
Definition now (tz : Z) (t : Z) : datetime :=
  {| wall := t + tz; tzinfo := Some tz |}.

(** [d.replace(tzinfo=tz)]: same wall clock, new offset. *)
Definition replace_tzinfo (d : datetime) (tz : Z) : datetime :=
  {| wall := wall d; tzinfo := Some tz |}.

(** [d + delta]. *)
Definition add_delta (d : datetime) (delta : Z) : datetime :=
  {| wall := wall d + delta; tzinfo := tzinfo d |}.

(** [calendar.timegm(d.utctimetuple())]: whole seconds since the epoch,
    a naive value being taken as UTC. *)
Definition timegm (d : datetime) : Z :=
  (wall d - match tzinfo d with Some off => off | None => 0 end) / 1000000.

(** [d.isoformat()]: the calendar rendering of a [datetime], with its
    offset when it has one. *)
Class DateFormat : Type := {
  isoformat : datetime -> string
}.

(** [str(z)] for an int. *)
Definition str_int (z : Z) : string :=
  NilZero.string_of_int (Z.to_int z).

(** A string with at least one character and no white space: what
    [split] returns as one piece. *)
Fixpoint no_space (s : string) : bool :=
  match s with
  | EmptyString => true
  | String c s' => negb (isspace c) && no_space s'
  end.

Definition one_word (s : string) : bool :=
  match s with
  | EmptyString => false
  | String _ _ => no_space s
  end.

(** Whether a string holds the character of code 0. *)
Fixpoint has_nul (s : string) : bool :=
  match s with
  | EmptyString => false
  | String c s' => Ascii.eqb c "000"%char || has_nul s'
  end.

(** The instant a [datetime] names, in microseconds of UTC; a naive
    value is taken as UTC. *)
Definition instant (d : datetime) : Z :=
  wall d - match tzinfo d with Some off => off | None => 0 end.

End Py.

(* ================================================================== *)
(** * The [csv] module: [csv.writer(buffer).writerow] *)
(* ================================================================== *)

Module Csv.

Definition quotechar : ascii := "034"%char.
Definition lineterminator : string :=
  String "013"%char (String "010"%char EmptyString).

(** The default dialect quotes a field only when it has to: when it
    holds the delimiter, the quote character, or a line break. *)
Definition special (c : ascii) : bool :=
  (Ascii.eqb c ","%char || Ascii.eqb c quotechar
   || Ascii.eqb c "013"%char || Ascii.eqb c "010"%char).

Fixpoint has_special (s : string) : bool :=
  match s with
  | EmptyString => false
  | String c s' => special c || has_special s'
  end.

(** Inside a quoted field the quote character is written twice. *)
Fixpoint double_quotes (s : string) : string :=
  match s with
  | EmptyString => EmptyString
  | String c s' =>
      if Ascii.eqb c quotechar
      then String c (String c (double_quotes s'))
      else String c (double_quotes s')
  end.

Definition field (s : string) : string :=
  if has_special s
  then String quotechar (double_quotes s ++ String quotechar EmptyString)
  else s.

(** One record: the fields joined by commas, then CR LF. *)
Definition writerow (fields : list string) : string :=
  (String.concat "," (map field fields) ++ lineterminator)%string.

End Csv.

(* ================================================================== *)
(** * The libraries behind the security helpers *)
(* ================================================================== *)

(** ** python-jose: signed tokens *)

Module Jose.

(** The claims of a token after decoding.  [sub] is a string when it
    is present (the decoder refuses any other subject), [exp] a number
    of seconds since the epoch. *)
Record claims : Type := {
  sub : option string;
  exp : option Z
}.

(** The dictionary handed to [jwt.encode]: the subject, and the expiry
    still as a [datetime]. *)
Record payload : Type := {
  p_sub : option string;
  p_exp : option Py.datetime
}.

(** The compact serialization and its HS256 signature.  [sign c k]
    is the token for claims [c] under key [k]; [verify t k] checks
    the signature of [t] under [k] and gives its claims back.  A token
    is one word: base64url segments joined by dots. *)
Class JWS : Type := {
  sign : claims -> string -> string;
  verify : string -> string -> option claims;
  verify_sign : forall c k, verify (sign c k) k = Some c;
  sign_one_word : forall c k, Py.one_word (sign c k) = true
}.

Inductive JWTError : Type :=
| InvalidToken
| ExpiredSignatureError.

Section Jwt.
Context {JW : JWS}.

(** [jwt.encode(payload, key, algorithm)]: a [datetime] under "exp"
    is turned into whole seconds before signing. *)
Definition encode (p : payload) (key : string) : string :=
  sign {| sub := p_sub p; exp := option_map Py.timegm (p_exp p) |} key.

(** [jwt.decode(token, key, algorithms)] at the instant [t]
    (microseconds, UTC): the signature is checked first, then the
    expiry, which has passed when it is below the current second. *)
Definition decode (t : Z) (token key : string) : JWTError + claims :=
  match verify token key with
  | None => inl InvalidToken
  | Some c =>
      match exp c with
      | Some e =>
          if e <? Py.timegm (Py.utcnow t)
          then inl ExpiredSignatureError
          else inr c
      | None => inr c
      end
  end.
End Jwt.

End Jose.

(** ** passlib: [CryptContext(schemes=["bcrypt"])] *)

Module Passlib.

(** [hash p salt] is the stored form of password [p], the salt being
    drawn by the library; [verify p h] compares [p] with a stored
    form. *)
Class Bcrypt : Type := {
  hash : string -> string -> string;
  verify : string -> string -> bool;
  verify_hash : forall p salt, verify p (hash p salt) = true
}.

End Passlib.

(* ================================================================== *)
(** * Configuration *)
(* ================================================================== *)

(** [os.environ.get("SECRET_KEY", "change_this_secret_for_prod")]. *)
Definition SECRET_KEY (environ_SECRET_KEY : option string) : string :=
  match environ_SECRET_KEY with
  | Some v => v
  | None => "change_this_secret_for_prod"
  end.

Definition ALGORITHM : string := "HS256".

Definition ACCESS_TOKEN_EXPIRE_MINUTES : Z := 60 * 24 * 7.

(** [IST = timezone(timedelta(hours=5, minutes=30))]. *)
Definition IST : Z := Py.timedelta 5 30.

(* ================================================================== *)
(** * Tables and request schemas *)
(* ================================================================== *)

Module UserDB.
Record t : Type := {
  id : Z;
  username : string;
  hashed_password : string
}.
End UserDB.

Module TransactionDB.
Record t : Type := {
  id : Z;
  title : string;
  amount : float;
  type : string;
  category : option string;
  date : Py.datetime;
  owner_id : Z
}.
End TransactionDB.

Module UserCreate.
Record t : Type := {
  username : string;
  password : string
}.
End UserCreate.

Module TokenResponse.
Record t : Type := {
  access_token : string;
  token_type : string
}.
End TokenResponse.

Module TransactionCreate.
Record t : Type := {
  title : string;
  amount : float;
  type : string;
  category : option string;
  date : option Py.datetime
}.
End TransactionCreate.

Module SummaryResponse.
Record t : Type := {
  total_income : float;
  total_expense : float;
  net_balance : float
}.
End SummaryResponse.

Module StreamingResponse.
Record t : Type := {
  body : list string;
  media_type : string;
  content_disposition : string
}.
End StreamingResponse.

(* ================================================================== *)
(** * The store and the handler monad *)
(* ================================================================== *)

(** The two tables, rows in insertion order. *)
Record store : Type := {
  users : list UserDB.t;
  transactions : list TransactionDB.t
}.

(** What a handler does besides computing its answer: it decodes a
    token, reads a table, or commits a change. *)
Inductive event : Type :=
| JwtDecode
| Query
| Commit.

(** The store together with the record of what has been done to it,
    latest event first. *)
Record world : Type := {
  db : store;
  trace : list event
}.

(** [HTTPException(status_code, detail)]. *)
Record HTTPException : Type := HTTP {
  status_code : Z;
  detail : string
}.

(** A handler either raises or returns, and leaves a world behind.
    Every [raise] of the source happens before the handler's first
    write, so the world left by a raise is the one the session saw. *)
Definition M (A : Type) : Type := world -> (HTTPException + A) * world.

Definition ret {A : Type} (a : A) : M A := fun w => (inr a, w).

Definition raise {A : Type} (e : HTTPException) : M A := fun w => (inl e, w).

Definition bind {A B : Type} (c : M A) (k : A -> M B) : M B :=
  fun w =>
    match c w with
    | (inl e, w') => (inl e, w')
    | (inr a, w') => k a w'
    end.

Notation "x <- c ;; k" := (bind c (fun x => k))
  (at level 61, c at next level, right associativity).

Definition emit (e : event) : M unit :=
  fun w => (inr tt, {| db := db w; trace := e :: trace w |}).

(** The row id a table gives to a new row: one more than the largest id
    in use. *)
Definition next_id (ids : list Z) : Z := 1 + fold_right Z.max 0 ids.

(** [db.query(UserDB).filter(p).first()]. *)
Definition query_user_first (p : UserDB.t -> bool) : M (option UserDB.t) :=
  _ <- emit Query ;;
  fun w => (inr (find p (users (db w))), w).

(** [db.query(TransactionDB).filter(p).all()]. *)
Definition query_transactions (p : TransactionDB.t -> bool)
  : M (list TransactionDB.t) :=
  _ <- emit Query ;;
  fun w => (inr (filter p (transactions (db w))), w).

(** ** What the SQLite engine does to the values it is given *)

(** An exception no handler catches: the framework answers 500. *)
Definition internal_server_error : HTTPException :=
  HTTP 500 "Internal Server Error".

(** The integers an SQLite statement can be given: signed 64-bit.
    Binding any other Python int raises [OverflowError]. *)
Definition sqlite_integer (z : Z) : bool :=
  (- 2 ^ 63 <=? z) && (z <? 2 ^ 63).

(** A float column gives back the float it was given, except that
    minus zero comes back as zero.  (NaN is not kept at all: see
    [add_tx].) *)
Definition sqlite_real (x : float) : float :=
  if PrimFloat.is_zero x then 0%float else x.

(** A [DateTime] column keeps the wall-clock reading of a [datetime] and
    not its offset: what is read back is naive. *)
Definition sqlite_datetime (d : Py.datetime) : Py.datetime :=
  {| Py.wall := Py.wall d; Py.tzinfo := None |}.

(** [db.query(TransactionDB).filter(TransactionDB.id == tx_id,
    TransactionDB.owner_id == owner_id).first()].  [tx_id] comes from the
    request: when it is no SQLite integer the statement cannot be run
    and the request ends in 500. *)
Definition query_transaction_first (tx_id owner_id : Z)
  : M (option TransactionDB.t) :=
  if sqlite_integer tx_id then
    _ <- emit Query ;;
    fun w =>
      (inr (find (fun r => (TransactionDB.id r =? tx_id)
                           && (TransactionDB.owner_id r =? owner_id))
                 (transactions (db w))), w)
  else raise internal_server_error.

(** [db.add(UserDB(...)); db.commit(); db.refresh(...)]: the row comes
    back with its id. *)
Definition add_user (username hashed_password : string) : M UserDB.t :=
  fun w =>
    let u := {| UserDB.id := next_id (map UserDB.id (users (db w)));
                UserDB.username := username;
                UserDB.hashed_password := hashed_password |} in
    (inr u,
     {| db := {| users := users (db w) ++ [u];
                 transactions := transactions (db w) |};
        trace := Commit :: trace w |}).

(** [db.add(TransactionDB(...)); db.commit(); db.refresh(...)].  A NaN
    amount reaches the table as NULL, which the column refuses: the
    commit raises, nothing is stored and the request ends in 500.
    Otherwise the row that comes back from [db.refresh] is the row as
    the table holds it. *)
Definition add_tx (title : string) (amount : float) (type : string)
    (category : option string) (date : Py.datetime) (owner_id : Z)
  : M TransactionDB.t :=
  fun w =>
    if PrimFloat.is_nan amount then (inl internal_server_error, w)
    else
      let r := {| TransactionDB.id :=
                    next_id (map TransactionDB.id (transactions (db w)));
                  TransactionDB.title := title;
                  TransactionDB.amount := sqlite_real amount;
                  TransactionDB.type := type;
                  TransactionDB.category := category;
                  TransactionDB.date := sqlite_datetime date;
                  TransactionDB.owner_id := owner_id |} in
      (inr r,
       {| db := {| users := users (db w);
                   transactions := transactions (db w) ++ [r] |};
          trace := Commit :: trace w |}).

(** [db.delete(tx); db.commit()]: the row with that primary key goes. *)
Definition delete_tx (tx : TransactionDB.t) : M unit :=
  fun w =>
    (inr tt,
     {| db := {| users := users (db w);
                 transactions :=
                   filter (fun r => negb (TransactionDB.id r
                                          =? TransactionDB.id tx))
                          (transactions (db w)) |};
        trace := Commit :: trace w |}).

(** ** [order_by(TransactionDB.date.desc())] *)

(** The engine's ordering of the values of a [DateTime] column: the
    column holds wall-clock readings, and these are what is compared. *)
Definition date_key (d : Py.datetime) : Z := Py.wall d.

Section OrderBy.

Definition tx_key (r : TransactionDB.t) : Z := date_key (TransactionDB.date r).

(** Rows are placed one by one, a row going in front of the first row
    that is not later than it. *)
Fixpoint insert_desc (r : TransactionDB.t) (rows : list TransactionDB.t)
  : list TransactionDB.t :=
  match rows with
  | [] => [r]
  | x :: xs =>
      if tx_key x <=? tx_key r then r :: x :: xs
      else x :: insert_desc r xs
  end.

Definition order_by_date_desc (rows : list TransactionDB.t)
  : list TransactionDB.t :=
  fold_right insert_desc [] rows.

(** [db.query(TransactionDB).filter(p).order_by(date.desc()).all()]. *)
Definition query_transactions_desc (p : TransactionDB.t -> bool)
  : M (list TransactionDB.t) :=
  _ <- emit Query ;;
  fun w => (inr (order_by_date_desc (filter p (transactions (db w)))), w).

End OrderBy.

(* ================================================================== *)
(** * The handlers *)
(* ================================================================== *)

Section Handlers.
Context {JW : Jose.JWS} {BC : Passlib.Bcrypt} {FB : Py.FloatBuiltins}
        {DF : Py.DateFormat}.

(** The value of the environment variable [SECRET_KEY], if it is set. *)
Variable environ_SECRET_KEY : option string.

(** ** Security utils *)

Definition verify_password (plain hashed : string) : bool :=
  Passlib.verify plain hashed.

(** [salt] is the salt the library draws for this call.  The library
    refuses a password that holds a NUL character: the exception is not
    caught and the request ends in 500. *)
Definition get_password_hash (salt password : string) : M string :=
  if Py.has_nul password then raise internal_server_error
  else ret (Passlib.hash password salt).

(** [t] is the instant of the call, in microseconds.  A zero
    [expires_delta] is false and gives way to the default like [None]. *)
Definition create_access_token (t : Z) (data : Jose.payload)
    (expires_delta : option Z) : string :=
  let to_encode := data in
  let default := Py.timedelta 0 ACCESS_TOKEN_EXPIRE_MINUTES in
  let delta :=
    match expires_delta with
    | Some d => if d =? 0 then default else d
    | None => default
    end in
  let expire := Py.add_delta (Py.utcnow t) delta in
  Jose.encode {| Jose.p_sub := Jose.p_sub to_encode;
                 Jose.p_exp := Some expire |}
              (SECRET_KEY environ_SECRET_KEY).

(** ** Auth dependency *)

(** The placeholder dependency: no route uses it, and it raises when
    called. *)
Definition get_current_user : M UserDB.t :=
  raise (HTTP 400 "Internal usage only").

Definition credentials_exception : HTTPException :=
  HTTP 401 "Could not validate credentials".

Definition get_current_user_from_token (t : Z) (token : string)
  : M UserDB.t :=
  _ <- emit JwtDecode ;;
  match Jose.decode t token (SECRET_KEY environ_SECRET_KEY) with
  | inl _ => raise credentials_exception
  | inr payload =>
      match Jose.sub payload with
      | None | Some EmptyString => raise credentials_exception
      | Some username =>
          user <- query_user_first
                    (fun u => String.eqb (UserDB.username u) username) ;;
          match user with
          | None => raise credentials_exception
          | Some u => ret u
          end
      end
  end.

(** ** Routes *)

(** [POST /register], answered with 201. *)
Definition register (salt : string) (user : UserCreate.t)
  : M (Z * string) :=
  existing <- query_user_first
                (fun u => String.eqb (UserDB.username u)
                                     (UserCreate.username user)) ;;
  match existing with
  | Some _ => raise (HTTP 400 "Username already exists")
  | None =>
      hashed <- get_password_hash salt (UserCreate.password user) ;;
      db_user <- add_user (UserCreate.username user) hashed ;;
      ret (UserDB.id db_user, UserDB.username db_user)
  end.

(** [POST /login]. *)
Definition login (t : Z) (payload : UserCreate.t) : M TokenResponse.t :=
  user <- query_user_first
            (fun u => String.eqb (UserDB.username u)
                                 (UserCreate.username payload)) ;;
  match user with
  | None => raise (HTTP 401 "Invalid credentials")
  | Some u =>
      if negb (verify_password (UserCreate.password payload)
                               (UserDB.hashed_password u))
      then raise (HTTP 401 "Invalid credentials")
      else
        let token :=
          create_access_token t
            {| Jose.p_sub := Some (UserDB.username u);
               Jose.p_exp := None |} None in
        ret {| TokenResponse.access_token := token;
               TokenResponse.token_type := "bearer" |}
  end.

(** Protected helper used inside endpoints. *)
Definition require_user_from_header (t : Z)
    (authorization_header : option string) : M UserDB.t :=
  match authorization_header with
  | None | Some EmptyString =>
      raise (HTTP 401 "Authorization header missing")
  | Some header =>
      let parts := Py.split header in
      match parts with
      | [scheme; token] =>
          if negb (String.eqb (Py.lower scheme) "bearer")
          then raise (HTTP 401 "Invalid auth header")
          else get_current_user_from_token t token
      | _ => raise (HTTP 401 "Invalid auth header")
      end
  end.

(** [POST /add-transaction], the placeholder the protected route below
    replaces: it checks no header and always raises. *)
Definition add_transaction (tx : TransactionCreate.t)
    (authorization : option string) : M TransactionDB.t :=
  raise (HTTP 500 "Use endpoint wrapped with get_current_user route").

(** [POST /tx/add].  [t] is the instant at which the token is checked,
    [t_now] the one at which [datetime.now(IST)] is read. *)
Definition add_transaction_protected (t t_now : Z)
    (tx : TransactionCreate.t) (authorization : option string)
  : M TransactionDB.t :=
  user <- require_user_from_header t authorization ;;
  let tx_date :=
    match TransactionCreate.date tx with
    | Some d => d
    | None => Py.now IST t_now
    end in
  let tx_date :=
    match TransactionCreate.date tx with
    | Some d =>
        match Py.tzinfo d with
        | None => Py.replace_tzinfo d IST
        | Some _ => tx_date
        end
    | None => tx_date
    end in
  add_tx (TransactionCreate.title tx) (TransactionCreate.amount tx)
         (TransactionCreate.type tx) (TransactionCreate.category tx)
         tx_date (UserDB.id user).

(** [GET /transactions]. *)
Definition get_transactions_protected (t : Z)
    (authorization : option string) : M (list TransactionDB.t) :=
  user <- require_user_from_header t authorization ;;
  rows <- query_transactions_desc
            (fun r => TransactionDB.owner_id r =? UserDB.id user) ;;
  ret rows.

(** [DELETE /delete-transaction/{tx_id}]. *)
Definition delete_transaction_protected (t : Z) (tx_id : Z)
    (authorization : option string) : M (string * string) :=
  user <- require_user_from_header t authorization ;;
  tx <- query_transaction_first tx_id (UserDB.id user) ;;
  match tx with
  | None => raise (HTTP 404 "Transaction not found")
  | Some tx =>
      _ <- delete_tx tx ;;
      ret ("success"%string,
           ("Transaction " ++ Py.str_int tx_id ++ " deleted")%string)
  end.

(** [GET /summary].  The response model turns the three numbers into
    floats. *)
Definition summary_protected (t : Z) (authorization : option string)
  : M SummaryResponse.t :=
  user <- require_user_from_header t authorization ;;
  transactions <- query_transactions
                    (fun r => TransactionDB.owner_id r =? UserDB.id user) ;;
  let total_income :=
    Py.round_2
      (Py.sum (map TransactionDB.amount
                 (filter (fun r => String.eqb (TransactionDB.type r) "income")
                         transactions))) in
  let total_expense :=
    Py.round_2
      (Py.sum (map TransactionDB.amount
                 (filter (fun r => String.eqb (TransactionDB.type r) "expense")
                         transactions))) in
  ret {| SummaryResponse.total_income := Py.to_float total_income;
         SummaryResponse.total_expense := Py.to_float total_expense;
         SummaryResponse.net_balance :=
           Py.to_float (Py.round_2 (Py.sub total_income total_expense)) |}.

(** The chunks [iter_csv(rows)] yields, in order. *)
Definition iter_csv (rows : list TransactionDB.t) : list string :=
  Csv.writerow ["id"; "title"; "amount"; "type"; "category"; "date"]%string
  :: map (fun r =>
            Csv.writerow
              [Py.str_int (TransactionDB.id r);
               TransactionDB.title r;
               Py.float_repr (TransactionDB.amount r);
               TransactionDB.type r;
               match TransactionDB.category r with
               | Some c => c
               | None => EmptyString
               end;
               Py.isoformat (TransactionDB.date r)])
         rows.

(** [GET /export-csv]. *)
Definition export_csv_protected (t : Z) (authorization : option string)
  : M StreamingResponse.t :=
  user <- require_user_from_header t authorization ;;
  rows <- query_transactions_desc
            (fun r => TransactionDB.owner_id r =? UserDB.id user) ;;
  ret {| StreamingResponse.body := iter_csv rows;
         StreamingResponse.media_type := "text/csv";
         StreamingResponse.content_disposition :=
           "attachment; filename=transactions.csv" |}.

(** ** The routes that ask for a bearer token *)

Inductive protected_request : Type :=
| PostTxAdd (t_now : Z) (tx : TransactionCreate.t)
| GetTransactions
| DeleteTransaction (tx_id : Z)
| GetSummary
| GetExportCsv.

Inductive response : Type :=
| Created (row : TransactionDB.t)
| Listed (rows : list TransactionDB.t)
| Deleted (status message : string)
| Summarized (s : SummaryResponse.t)
| Exported (r : StreamingResponse.t).

Definition fmap {A B : Type} (f : A -> B) (c : M A) : M B :=
  a <- c ;; ret (f a).

(** The application's routing of a protected request. *)
Definition serve (t : Z) (req : protected_request)
    (authorization : option string) : M response :=
  match req with
  | PostTxAdd t_now tx =>
      fmap Created (add_transaction_protected t t_now tx authorization)
  | GetTransactions =>
      fmap Listed (get_transactions_protected t authorization)
  | DeleteTransaction tx_id =>
      fmap (fun r => Deleted (fst r) (snd r))
           (delete_transaction_protected t tx_id authorization)
  | GetSummary =>
      fmap Summarized (summary_protected t authorization)
  | GetExportCsv =>
      fmap Exported (export_csv_protected t authorization)
  end.

End Handlers.

(* ================================================================== *)
(** * Executable instances of the interfaces *)
(* ================================================================== *)

(** The theorems below hold for every instance of the interfaces.  The
    instances here make the handlers run on concrete requests. *)

Module Instances.

(** ** Float routines *)

(** [n / d] rounded to the nearest integer, a tie going to the even
    neighbour. *)
Definition div_half_even (n d : Z) : Z :=
  let q := n / d in
  let r := n mod d in
  if 2 * r <? d then q
  else if d <? 2 * r then q + 1
  else if Z.even q then q else q + 1.

(** Rounding to two decimals through the exact value: the nearest
    multiple of 1/100 (ties to even), then the nearest float to it.
    From 2^53 hundredths on, floats are further apart than 1/100 and the
    argument is the nearest float to its own rounding. *)
Definition round2_exact (x : float) : float :=
  match Prim2SF x with
  | S754_finite s m e =>
      let hundredths :=
        if 0 <=? e then Zpos m * 100 * 2 ^ e
        else div_half_even (Zpos m * 100) (2 ^ (- e)) in
      if hundredths <? 2 ^ 53 then
        let r := PrimFloat.div (Py.float_of_int hundredths) 100%float in
        if s then PrimFloat.opp r else r
      else x
  | _ => x
  end.

(** A rendering of a float by its sign, mantissa and exponent. *)
Definition repr_parts (x : float) : string :=
  match Prim2SF x with
  | S754_zero s => if s then "-0.0" else "0.0"
  | S754_infinity s => if s then "-inf" else "inf"
  | S754_nan => "nan"
  | S754_finite s m e =>
      ((if s then "-" else "") ++ Py.str_int (Zpos m) ++ "p" ++ Py.str_int e)
  end%string.

#[export] Instance float_builtins : Py.FloatBuiltins := {
  Py.fsum := fun xs => fold_left PrimFloat.add xs 0%float;
  Py.round2 := round2_exact;
  Py.float_repr := repr_parts
}.

(** A rendering of a [datetime] by its microseconds and its offset. *)
#[export] Instance date_format : Py.DateFormat := {
  Py.isoformat := fun d =>
    (Py.str_int (Py.wall d)
     ++ match Py.tzinfo d with
        | Some off => "+" ++ Py.str_int off
        | None => ""
        end)%string
}.

(** ** Passwords *)

(** A stand-in with the law and none of the secrecy: the stored form is
    the password itself, whatever the salt. *)
#[export, refine] Instance plain_passwords : Passlib.Bcrypt := {
  Passlib.hash := fun p _ => p;
  Passlib.verify := fun p h => String.eqb p h
}.
Proof.
  intros p _. apply String.eqb_refl.
Defined.

(** ** Tokens *)

(** A stand-in for the compact serialization: the key and the claims
    written out in a prefix code over the letters [c e 0 1 N S z p n].
    Each encoder takes the text that follows; each decoder gives the
    value and the text left. *)

Definition bit_char (b : bool) : ascii := if b then "1"%char else "0"%char.

Definition char_bit (c : ascii) : option bool :=
  if Ascii.eqb c "0" then Some false
  else if Ascii.eqb c "1" then Some true
  else None.

Definition enc_ascii (c : ascii) (k : string) : string :=
  match c with
  | Ascii b0 b1 b2 b3 b4 b5 b6 b7 =>
      String (bit_char b0) (String (bit_char b1) (String (bit_char b2)
      (String (bit_char b3) (String (bit_char b4) (String (bit_char b5)
      (String (bit_char b6) (String (bit_char b7) k)))))))
  end.

Fixpoint enc_string (s : string) (k : string) : string :=
  match s with
  | EmptyString => String "e" k
  | String c s' => String "c" (enc_ascii c (enc_string s' k))
  end.

Definition dec_ascii (c0 c1 c2 c3 c4 c5 c6 c7 : ascii) : option ascii :=
  match char_bit c0, char_bit c1, char_bit c2, char_bit c3,
        char_bit c4, char_bit c5, char_bit c6, char_bit c7 with
  | Some b0, Some b1, Some b2, Some b3, Some b4, Some b5, Some b6, Some b7 =>
      Some (Ascii b0 b1 b2 b3 b4 b5 b6 b7)
  | _, _, _, _, _, _, _, _ => None
  end.

Fixpoint dec_string (s : string) : option (string * string) :=
  match s with
  | String tag rest =>
      if Ascii.eqb tag "e" then Some (EmptyString, rest)
      else if Ascii.eqb tag "c" then
        match rest with
        | String c0 (String c1 (String c2 (String c3 (String c4
            (String c5 (String c6 (String c7 rest'))))))) =>
            match dec_ascii c0 c1 c2 c3 c4 c5 c6 c7, dec_string rest' with
            | Some c, Some (s', k) => Some (String c s', k)
            | _, _ => None
            end
        | _ => None
        end
      else None
  | EmptyString => None
  end.

Fixpoint enc_pos (p : positive) (k : string) : string :=
  match p with
  | xH => String "e" k
  | xO p' => String "0" (enc_pos p' k)
  | xI p' => String "1" (enc_pos p' k)
  end.

Fixpoint dec_pos (s : string) : option (positive * string) :=
  match s with
  | String tag rest =>
      if Ascii.eqb tag "e" then Some (xH, rest)
      else
        match char_bit tag, dec_pos rest with
        | Some b, Some (p, k) => Some (if b then xI p else xO p, k)
        | _, _ => None
        end
  | EmptyString => None
  end.

Definition enc_Z (z : Z) (k : string) : string :=
  match z with
  | Z0 => String "z" k
  | Zpos p => String "p" (enc_pos p k)
  | Zneg p => String "n" (enc_pos p k)
  end.

Definition dec_Z (s : string) : option (Z * string) :=
  match s with
  | String tag rest =>
      if Ascii.eqb tag "z" then Some (0, rest)
      else if Ascii.eqb tag "p" then
        match dec_pos rest with
        | Some (p, k) => Some (Zpos p, k)
        | None => None
        end
      else if Ascii.eqb tag "n" then
        match dec_pos rest with
        | Some (p, k) => Some (Zneg p, k)
        | None => None
        end
      else None
  | EmptyString => None
  end.

Definition enc_option {A : Type} (enc : A -> string -> string)
    (o : option A) (k : string) : string :=
  match o with
  | None => String "N" k
  | Some a => String "S" (enc a k)
  end.

Definition dec_option {A : Type} (dec : string -> option (A * string))
    (s : string) : option (option A * string) :=
  match s with
  | String tag rest =>
      if Ascii.eqb tag "N" then Some (None, rest)
      else if Ascii.eqb tag "S" then
        match dec rest with
        | Some (a, k) => Some (Some a, k)
        | None => None
        end
      else None
  | EmptyString => None
  end.

Definition toy_sign (c : Jose.claims) (key : string) : string :=
  enc_string key
    (enc_option enc_string (Jose.sub c)
       (enc_option enc_Z (Jose.exp c) EmptyString)).

Definition toy_verify (token key : string) : option Jose.claims :=
  match dec_string token with
  | Some (key', r1) =>
      if String.eqb key' key then
        match dec_option dec_string r1 with
        | Some (sub, r2) =>
            match dec_option dec_Z r2 with
            | Some (exp, EmptyString) =>
                Some {| Jose.sub := sub; Jose.exp := exp |}
            | _ => None
            end
        | None => None
        end
      else None
  | None => None
  end.

Lemma char_bit_bit_char (b : bool) : char_bit (bit_char b) = Some b.
Proof. destruct b; reflexivity. Qed.

Lemma dec_enc_string (s k : string) :
  dec_string (enc_string s k) = Some (s, k).
Proof.
  induction s as [|c s IH]; [reflexivity|].
  destruct c as [b0 b1 b2 b3 b4 b5 b6 b7].
  cbn [enc_string enc_ascii dec_string].
  change (Ascii.eqb "c" "e") with false.
  change (Ascii.eqb "c" "c") with true.
  cbv iota. unfold dec_ascii.
  rewrite !char_bit_bit_char, IH. reflexivity.
Qed.

Lemma dec_enc_pos (p : positive) (k : string) :
  dec_pos (enc_pos p k) = Some (p, k).
Proof.
  induction p as [p IH|p IH|]; cbn [enc_pos dec_pos];
    try rewrite IH; reflexivity.
Qed.

Lemma dec_enc_Z (z : Z) (k : string) : dec_Z (enc_Z z k) = Some (z, k).
Proof.
  destruct z as [|p|p]; cbn [enc_Z dec_Z]; [reflexivity| |];
    change (Ascii.eqb _ _) with false at 1;
    cbv iota; try change (Ascii.eqb "n" "p") with false;
    cbv iota; rewrite ?Ascii.eqb_refl, dec_enc_pos; reflexivity.
Qed.

Lemma dec_enc_option {A : Type} (enc : A -> string -> string)
    (dec : string -> option (A * string))
    (Hdec : forall a k, dec (enc a k) = Some (a, k))
    (o : option A) (k : string) :
  dec_option dec (enc_option enc o k) = Some (o, k).
Proof.
  destruct o as [a|]; cbn [enc_option dec_option]; [|reflexivity].
  change (Ascii.eqb "S" "N") with false.
  change (Ascii.eqb "S" "S") with true.
  cbv iota. rewrite Hdec. reflexivity.
Qed.

Lemma toy_verify_sign (c : Jose.claims) (key : string) :
  toy_verify (toy_sign c key) key = Some c.
Proof.
  unfold toy_verify, toy_sign.
  rewrite dec_enc_string, String.eqb_refl.
  rewrite (dec_enc_option _ _ dec_enc_string).
  rewrite (dec_enc_option _ _ dec_enc_Z).
  destruct c; reflexivity.
Qed.

Lemma isspace_bit_char (b : bool) : Py.isspace (bit_char b) = false.
Proof. destruct b; reflexivity. Qed.

Lemma no_space_enc_string (s k : string) :
  Py.no_space (enc_string s k) = Py.no_space k.
Proof.
  induction s as [|c s IH]; [reflexivity|].
  destruct c as [b0 b1 b2 b3 b4 b5 b6 b7].
  cbn [enc_string enc_ascii Py.no_space].
  rewrite !isspace_bit_char, IH. reflexivity.
Qed.

Lemma no_space_enc_pos (p : positive) (k : string) :
  Py.no_space (enc_pos p k) = Py.no_space k.
Proof.
  induction p as [p IH|p IH|]; cbn [enc_pos Py.no_space];
    try rewrite IH; reflexivity.
Qed.

Lemma no_space_enc_Z (z : Z) (k : string) :
  Py.no_space (enc_Z z k) = Py.no_space k.
Proof.
  destruct z; cbn [enc_Z Py.no_space]; rewrite ?no_space_enc_pos;
    reflexivity.
Qed.

Lemma no_space_enc_option {A : Type} (enc : A -> string -> string)
    (Henc : forall a k, Py.no_space (enc a k) = Py.no_space k)
    (o : option A) (k : string) :
  Py.no_space (enc_option enc o k) = Py.no_space k.
Proof.
  destruct o; cbn [enc_option Py.no_space]; rewrite ?Henc; reflexivity.
Qed.

Lemma toy_sign_one_word (c : Jose.claims) (key : string) :
  Py.one_word (toy_sign c key) = true.
Proof.
  assert (H : Py.no_space (toy_sign c key) = true).
  { unfold toy_sign.
    rewrite no_space_enc_string.
    rewrite (no_space_enc_option _ no_space_enc_string).
    rewrite (no_space_enc_option _ no_space_enc_Z).
    reflexivity. }
  unfold Py.one_word. destruct (toy_sign c key) eqn:E; [|exact H].
  unfold toy_sign in E. destruct key; discriminate E.
Qed.

#[export] Instance toy_jws : Jose.JWS := {
  Jose.sign := toy_sign;
  Jose.verify := toy_verify;
  Jose.verify_sign := toy_verify_sign;
  Jose.sign_one_word := toy_sign_one_word
}.

End Instances.

(* ================================================================== *)
(** * Properties *)
(* ================================================================== *)

(** ** [str.split] on a bearer header *)

Lemma split_from_word (s w : string) :
  Py.no_space s = true ->
  Py.split_from (Some w) s = [(w ++ s)%string].
Proof.
  revert w. induction s as [|c s IH]; intros w Hs.
  - cbn. f_equal. induction w as [|a w IHw]; cbn; congruence.
  - cbn in Hs. apply andb_true_iff in Hs as [Hc Hs].
    apply negb_true_iff in Hc. cbn. rewrite Hc, (IH _ Hs).
    f_equal. induction w as [|a w IHw]; cbn; congruence.
Qed.

Lemma split_bearer (token : string) :
  Py.one_word token = true ->
  Py.split ("Bearer " ++ token) = ["Bearer"%string; token].
Proof.
  intros H. destruct token as [|c token]; [discriminate H|].
  cbn in H. apply andb_true_iff in H as [Hc Hs].
  apply negb_true_iff in Hc.
  unfold Py.split. cbn. rewrite Hc. cbn.
  rewrite (split_from_word _ _ Hs). reflexivity.
Qed.

(** ** The order of the listing *)

Section OrderByFacts.

(** Largest stored date first: the wall-clock reading of every row is
    at least that of the rows after it. *)
Definition latest_first (rows : list TransactionDB.t) : Prop :=
  StronglySorted (fun x y => tx_key y <= tx_key x) rows.

Lemma insert_desc_perm (r : TransactionDB.t) (rows : list TransactionDB.t) :
  Permutation (insert_desc r rows) (r :: rows).
Proof.
  induction rows as [|x xs IH]; cbn; [reflexivity|].
  destruct (tx_key x <=? tx_key r); [reflexivity|].
  rewrite IH. apply perm_swap.
Qed.

Lemma insert_desc_sorted (r : TransactionDB.t) (rows : list TransactionDB.t) :
  latest_first rows -> latest_first (insert_desc r rows).
Proof.
  unfold latest_first.
  induction rows as [|x xs IH]; intros Hs; cbn.
  - constructor; constructor.
  - inversion Hs as [|? ? Hxs Hx]; subst.
    destruct (tx_key x <=? tx_key r) eqn:E.
    + apply Z.leb_le in E. constructor; [exact Hs|].
      constructor; [exact E|].
      eapply Forall_impl; [|exact Hx]. cbn. intros; lia.
    + apply Z.leb_gt in E. constructor; [apply IH; exact Hxs|].
      eapply Permutation_Forall;
        [symmetry; apply insert_desc_perm|].
      constructor; [lia|exact Hx].
Qed.

Lemma order_by_date_desc_perm (rows : list TransactionDB.t) :
  Permutation (order_by_date_desc rows) rows.
Proof.
  induction rows as [|r rows IH]; cbn; [reflexivity|].
  rewrite insert_desc_perm. constructor. exact IH.
Qed.

Lemma order_by_date_desc_sorted (rows : list TransactionDB.t) :
  latest_first (order_by_date_desc rows).
Proof.
  induction rows as [|r rows IH]; cbn.
  - constructor.
  - apply insert_desc_sorted. exact IH.
Qed.

End OrderByFacts.

(** ** Authentication *)

(** The token of a well-formed header: the header has exactly two
    parts and the first is "bearer" in any letter case. *)
Definition bearer_token (authorization : option string) : option string :=
  match authorization with
  | Some header =>
      match Py.split header with
      | [scheme; token] =>
          if String.eqb (Py.lower scheme) "bearer" then Some token else None
      | _ => None
      end
  | None => None
  end.

(** The detail of the 401 a header without a token gets. *)
Definition header_detail (authorization : option string) : string :=
  match authorization with
  | None | Some EmptyString => "Authorization header missing"
  | Some _ => "Invalid auth header"
  end.

(** The world after [events], the store untouched. *)
Definition after (events : list event) (w : world) : world :=
  {| db := db w; trace := events ++ trace w |}.

Section Authentication.
Context {JW : Jose.JWS} {BC : Passlib.Bcrypt} {FB : Py.FloatBuiltins}
        {DF : Py.DateFormat}.
Variable environ_SECRET_KEY : option string.

Local Abbreviation key := (SECRET_KEY environ_SECRET_KEY).
Local Abbreviation require_user :=
  (require_user_from_header environ_SECRET_KEY).

Lemma require_user_bearer (t : Z) (authorization : option string) :
  require_user t authorization =
  match bearer_token authorization with
  | Some token => get_current_user_from_token environ_SECRET_KEY t token
  | None => raise (HTTP 401 (header_detail authorization))
  end.
Proof.
  destruct authorization as [[|c s]|]; try reflexivity.
  unfold require_user_from_header, bearer_token, header_detail.
  destruct (Py.split (String c s)) as [|x [|y [|z l]]]; try reflexivity.
  destruct (String.eqb (Py.lower x) "bearer"); reflexivity.
Qed.

(** The four ways a token check ends. *)
Lemma get_current_user_from_token_run (t : Z) (token : string) (w : world) :
  get_current_user_from_token environ_SECRET_KEY t token w =
  match Jose.decode t token key with
  | inl _ => (inl credentials_exception, after [JwtDecode] w)
  | inr c =>
      match Jose.sub c with
      | None | Some EmptyString =>
          (inl credentials_exception, after [JwtDecode] w)
      | Some name =>
          match find (fun u => String.eqb (UserDB.username u) name)
                     (users (db w)) with
          | None => (inl credentials_exception, after [Query; JwtDecode] w)
          | Some u => (inr u, after [Query; JwtDecode] w)
          end
      end
  end.
Proof.
  unfold get_current_user_from_token, bind, emit, raise, after.
  destruct (Jose.decode t token key) as [e|c]; [reflexivity|].
  destruct (Jose.sub c) as [[|a name]|]; try reflexivity.
  unfold query_user_first, bind, emit, ret, raise. cbn.
  destruct (find _ (users (db w))); reflexivity.
Qed.

Lemma require_user_db (t : Z) (a : option string) (w w' : world)
    (r : HTTPException + UserDB.t) :
  require_user t a w = (r, w') -> db w' = db w.
Proof.
  rewrite require_user_bearer.
  destruct (bearer_token a) as [token|].
  - rewrite get_current_user_from_token_run.
    destruct (Jose.decode t token key) as [e|c];
      [intros [= _ <-]; reflexivity|].
    destruct (Jose.sub c) as [[|x name]|];
      try (intros [= _ <-]; reflexivity).
    destruct (find _ (users (db w))); intros [= _ <-]; reflexivity.
  - intros [= _ <-]. reflexivity.
Qed.

Lemma require_user_raises_401 (t : Z) (a : option string) (w w' : world)
    (e : HTTPException) :
  require_user t a w = (inl e, w') -> status_code e = 401.
Proof.
  rewrite require_user_bearer.
  destruct (bearer_token a) as [token|].
  - rewrite get_current_user_from_token_run.
    destruct (Jose.decode t token key) as [e'|c];
      [intros [= <- _]; reflexivity|].
    destruct (Jose.sub c) as [[|x name]|];
      try (intros [= <- _]; reflexivity).
    destruct (find _ (users (db w))); intros [= <- _]; try reflexivity.
  - intros [= <- _]. reflexivity.
Qed.

(** A user comes back only for a token that decodes to an existing
    user's name. *)
Lemma require_user_returns (t : Z) (a : option string) (w w' : world)
    (u : UserDB.t) :
  require_user t a w = (inr u, w') ->
  exists token c,
    bearer_token a = Some token /\
    Jose.decode t token key = inr c /\
    Jose.sub c = Some (UserDB.username u) /\
    UserDB.username u <> EmptyString /\
    find (fun x => String.eqb (UserDB.username x) (UserDB.username u))
         (users (db w)) = Some u.
Proof.
  rewrite require_user_bearer.
  destruct (bearer_token a) as [token|]; [|discriminate].
  rewrite get_current_user_from_token_run.
  destruct (Jose.decode t token key) as [e'|c] eqn:Ed; [discriminate|].
  destruct (Jose.sub c) as [[|x name]|] eqn:Es; try discriminate.
  destruct (find _ (users (db w))) as [u'|] eqn:Ef; [|discriminate].
  intros [= -> _].
  pose proof (find_some _ _ Ef) as [_ Hn]. apply String.eqb_eq in Hn.
  exists token, c. rewrite Hn.
  repeat split; solve [assumption | discriminate].
Qed.

(** Every protected route starts with the header check and stops where
    the check stops. *)
Lemma serve_unauthorized (t : Z) (req : protected_request)
    (a : option string) (w w' : world) (e : HTTPException) :
  require_user t a w = (inl e, w') ->
  serve environ_SECRET_KEY t req a w = (inl e, w').
Proof.
  intros H.
  destruct req; unfold serve, fmap, add_transaction_protected,
    get_transactions_protected, delete_transaction_protected,
    summary_protected, export_csv_protected, bind;
    rewrite H; reflexivity.
Qed.

End Authentication.

(** ** The ledger *)

(** The rows of user [u] in the store of [w]. *)
Definition owned_by (u : UserDB.t) (w : world) : list TransactionDB.t :=
  filter (fun r => TransactionDB.owner_id r =? UserDB.id u)
         (transactions (db w)).

(** The amounts of the rows of [u] whose type is [ty]. *)
Definition amounts_of (ty : string) (u : UserDB.t) (w : world) : list float :=
  map TransactionDB.amount
      (filter (fun r => String.eqb (TransactionDB.type r) ty) (owned_by u w)).

(** A sum rounded to two decimals; nothing to add gives zero. *)
Definition rounded_total {FB : Py.FloatBuiltins} (xs : list float) : float :=
  match xs with
  | [] => 0%float
  | _ :: _ => Py.round2 (Py.fsum xs)
  end.

(** The fields of one exported record. *)
Definition csv_record {FB : Py.FloatBuiltins} {DF : Py.DateFormat}
    (r : TransactionDB.t) : list string :=
  [Py.str_int (TransactionDB.id r);
   TransactionDB.title r;
   Py.float_repr (TransactionDB.amount r);
   TransactionDB.type r;
   match TransactionDB.category r with Some c => c | None => EmptyString end;
   Py.isoformat (TransactionDB.date r)].

(** The header line of the export, as it goes on the wire. *)
Definition csv_header : string :=
  ("id,title,amount,type,category,date" ++ Csv.lineterminator)%string.

Section Ledger.
Context {JW : Jose.JWS} {BC : Passlib.Bcrypt} {FB : Py.FloatBuiltins}
        {DF : Py.DateFormat}.
Variable environ_SECRET_KEY : option string.

Local Abbreviation require_user :=
  (require_user_from_header environ_SECRET_KEY).

(** C1.  For a request authenticated as [u], [GET /summary] answers with
    [total_income] the sum of the amounts of the "income" rows of [u]
    rounded to two decimals, [total_expense] the same over the "expense"
    rows, and [net_balance] the difference of these two totals rounded
    to two decimals (zero when [u] has no row of either type, the
    difference of two zeros).  The store is left as it was. *)
Theorem summary_totals (t : Z) (a : option string) (w w' : world)
    (u : UserDB.t) :
  require_user t a w = (inr u, w') ->
  exists s,
    summary_protected environ_SECRET_KEY t a w = (inr s, after [Query] w') /\
    SummaryResponse.total_income s = rounded_total (amounts_of "income" u w) /\
    SummaryResponse.total_expense s =
      rounded_total (amounts_of "expense" u w) /\
    SummaryResponse.net_balance s =
      match amounts_of "income" u w, amounts_of "expense" u w with
      | [], [] => 0%float
      | _, _ =>
          Py.round2 (PrimFloat.sub (SummaryResponse.total_income s)
                                   (SummaryResponse.total_expense s))
      end.
Proof.
  intros H. pose proof (require_user_db _ _ _ _ H) as Hdb.
  unfold summary_protected, bind. rewrite H.
  unfold query_transactions, bind, emit, ret. cbn.
  eexists. split; [reflexivity|]. cbn.
  unfold amounts_of, owned_by. rewrite Hdb.
  destruct (map TransactionDB.amount
              (filter (fun r => String.eqb (TransactionDB.type r) "income") _))
    as [|x xs];
  destruct (map TransactionDB.amount
              (filter (fun r => String.eqb (TransactionDB.type r) "expense") _))
    as [|y ys];
  repeat split; reflexivity.
Qed.

(** X19.  What listing and export give in every store.  For a request
    authenticated as [u], [GET /transactions] returns the rows of [u]
    and no others, ordered by the stored date, largest wall-clock
    reading first, and [GET /export-csv] on the same store streams the
    header line id,title,amount,type,category,date and then one record
    per row, in the order of the listing.  (The stored date has no
    offset: see [Session.mixed_offsets_listed_out_of_order].) *)
Theorem list_and_export_order (t : Z) (a : option string) (w w' : world)
    (u : UserDB.t) :
  require_user t a w = (inr u, w') ->
  exists rows resp,
    get_transactions_protected environ_SECRET_KEY t a w
      = (inr rows, after [Query] w') /\
    Permutation rows (owned_by u w) /\
    StronglySorted
      (fun x y => Py.wall (TransactionDB.date y)
                  <= Py.wall (TransactionDB.date x)) rows /\
    export_csv_protected environ_SECRET_KEY t a w
      = (inr resp, after [Query] w') /\
    StreamingResponse.body resp
      = csv_header :: map (fun r => Csv.writerow (csv_record r)) rows.
Proof.
  intros H. pose proof (require_user_db _ _ _ _ H) as Hdb.
  unfold get_transactions_protected, export_csv_protected, bind.
  rewrite H.
  unfold query_transactions_desc, bind, emit, ret. cbn.
  do 2 eexists. split; [reflexivity|].
  split; [|split; [|split; reflexivity]].
  - unfold owned_by. rewrite <- Hdb. apply order_by_date_desc_perm.
  - exact (order_by_date_desc_sorted _).
Qed.

(** X20.  What [POST /tx/add] stores as the date.  For a request
    authenticated as [u] whose amount is a number, the row stored and
    returned has no offset, and its wall-clock reading is: with no date
    in the request, that of the instant of creation read five and a half
    hours ahead of UTC; with a date that has no offset, the reading of
    that date.  (The handler tags both with +05:30; the table keeps the
    reading only: see [Session.naive_date_stored_without_offset].) *)
Theorem add_transaction_date (t t_now : Z) (tx : TransactionCreate.t)
    (a : option string) (w w' : world) (u : UserDB.t) :
  require_user t a w = (inr u, w') ->
  PrimFloat.is_nan (TransactionCreate.amount tx) = false ->
  exists row w'',
    add_transaction_protected environ_SECRET_KEY t t_now tx a w
      = (inr row, w'') /\
    transactions (db w'') = transactions (db w) ++ [row] /\
    IST = (5 * 60 + 30) * 60 * 1000000 /\
    (TransactionCreate.date tx = None ->
     TransactionDB.date row
       = {| Py.wall := t_now + IST; Py.tzinfo := None |}) /\
    (forall d,
       TransactionCreate.date tx = Some d -> Py.tzinfo d = None ->
       TransactionDB.date row
         = {| Py.wall := Py.wall d; Py.tzinfo := None |}).
Proof.
  intros H Hnan. pose proof (require_user_db _ _ _ _ H) as Hdb.
  unfold add_transaction_protected, bind. rewrite H.
  unfold add_tx. rewrite Hnan.
  do 2 eexists. split; [reflexivity|]. cbn -[next_id].
  rewrite Hdb. split; [reflexivity|]. split; [reflexivity|].
  split.
  - intros ->. reflexivity.
  - intros d -> ->. reflexivity.
Qed.

(** C9, as the code has it.  The request schema takes any float as the
    amount and the handler checks none.  For a request authenticated as
    [u], [POST /tx/add] with an amount that is a number stores and
    returns a row with that amount, whatever its sign (minus zero comes
    back as zero); with NaN it ends in 500 and stores nothing. *)
Theorem add_transaction_amount (t t_now : Z) (tx : TransactionCreate.t)
    (a : option string) (w w' : world) (u : UserDB.t) :
  require_user t a w = (inr u, w') ->
  (PrimFloat.is_nan (TransactionCreate.amount tx) = false ->
   exists row w'',
     add_transaction_protected environ_SECRET_KEY t t_now tx a w
       = (inr row, w'') /\
     transactions (db w'') = transactions (db w) ++ [row] /\
     TransactionDB.owner_id row = UserDB.id u /\
     TransactionDB.amount row
       = (if PrimFloat.is_zero (TransactionCreate.amount tx)
          then 0%float else TransactionCreate.amount tx)) /\
  (PrimFloat.is_nan (TransactionCreate.amount tx) = true ->
   add_transaction_protected environ_SECRET_KEY t t_now tx a w
     = (inl (HTTP 500 "Internal Server Error"), w')).
Proof.
  intros H. pose proof (require_user_db _ _ _ _ H) as Hdb.
  unfold add_transaction_protected, bind. rewrite H.
  unfold add_tx. split; intros Hnan; rewrite Hnan; [|reflexivity].
  do 2 eexists. split; [reflexivity|]. cbn -[next_id].
  rewrite Hdb. repeat split; reflexivity.
Qed.

End Ledger.

(** ** Deleting *)

Section Delete.
Context {JW : Jose.JWS} {BC : Passlib.Bcrypt} {FB : Py.FloatBuiltins}
        {DF : Py.DateFormat}.
Variable environ_SECRET_KEY : option string.

Local Abbreviation require_user :=
  (require_user_from_header environ_SECRET_KEY).

(** The store of [w] has a row with id [tx_id] that belongs to [u]. *)
Definition owns (u : UserDB.t) (tx_id : Z) (w : world) : Prop :=
  exists r, In r (transactions (db w)) /\
            TransactionDB.id r = tx_id /\
            TransactionDB.owner_id r = UserDB.id u.

Lemma find_owned (u : UserDB.t) (tx_id : Z) (w : world) :
  match find (fun r => (TransactionDB.id r =? tx_id)
                       && (TransactionDB.owner_id r =? UserDB.id u))
             (transactions (db w)) with
  | Some r => TransactionDB.id r = tx_id /\ owns u tx_id w
  | None => ~ owns u tx_id w
  end.
Proof.
  destruct (find _ _) as [r|] eqn:E.
  - apply find_some in E as [Hin Hp].
    apply andb_true_iff in Hp as [Hi Ho].
    apply Z.eqb_eq in Hi, Ho. split; [exact Hi|]. exists r. auto.
  - intros [r (Hin & Hi & Ho)].
    pose proof (find_none _ _ E r Hin) as Hp. cbn in Hp.
    rewrite Hi, Ho, !Z.eqb_refl in Hp. discriminate Hp.
Qed.

(** C2, for the ids the store can be asked about.  For a request
    authenticated as [u] and a [tx_id] in the signed 64-bit range,
    deleting [tx_id] succeeds exactly when the store has a row with that
    id that belongs to [u], and then no row with that id is left and
    nothing else changes.  In every other case the answer is the one 404
    "Transaction not found", the same whether the id belongs to another
    user or to nobody, and the store is left as it was. *)
Theorem delete_owned_only (t tx_id : Z) (a : option string) (w w' : world)
    (u : UserDB.t) :
  require_user t a w = (inr u, w') ->
  sqlite_integer tx_id = true ->
  ((exists msg w'',
      delete_transaction_protected environ_SECRET_KEY t tx_id a w
        = (inr msg, w''))
   <-> owns u tx_id w) /\
  (owns u tx_id w ->
   exists msg w'',
     delete_transaction_protected environ_SECRET_KEY t tx_id a w
       = (inr msg, w'') /\
     transactions (db w'')
       = filter (fun r => negb (TransactionDB.id r =? tx_id))
                (transactions (db w)) /\
     users (db w'') = users (db w)) /\
  (~ owns u tx_id w ->
   delete_transaction_protected environ_SECRET_KEY t tx_id a w
     = (inl (HTTP 404 "Transaction not found"), after [Query] w')).
Proof.
  intros H Hid64. pose proof (require_user_db _ _ _ _ H) as Hdb.
  pose proof (find_owned u tx_id w) as Hf.
  unfold delete_transaction_protected, bind. rewrite H.
  unfold query_transaction_first. rewrite Hid64.
  unfold bind, emit, ret, raise, delete_tx. cbn.
  rewrite <- Hdb in Hf.
  destruct (find _ (transactions (db w'))) as [r|].
  - destruct Hf as [Hid Ho]. rewrite Hid. split; [|split].
    + split; [intros _; exact Ho|]. intros _. do 2 eexists. reflexivity.
    + intros _. do 2 eexists. split; [reflexivity|]. cbn.
      rewrite Hdb. split; reflexivity.
    + intros Hn. contradiction.
  - split; [|split].
    + split; [intros (msg & w'' & E); discriminate E|].
      intros Ho. contradiction.
    + intros Ho. contradiction.
    + intros _. reflexivity.
Qed.

(** Outside that range the statement cannot be run: the request ends in
    500, before any row is looked up, and the store is left as it
    was. *)
Lemma delete_unbindable_id (t tx_id : Z) (a : option string) (w w' : world)
    (u : UserDB.t) :
  require_user t a w = (inr u, w') ->
  sqlite_integer tx_id = false ->
  delete_transaction_protected environ_SECRET_KEY t tx_id a w
  = (inl (HTTP 500 "Internal Server Error"), w').
Proof.
  intros H Hid64. unfold delete_transaction_protected, bind. rewrite H.
  unfold query_transaction_first. rewrite Hid64. reflexivity.
Qed.

End Delete.

(** ** Tokens and headers *)

Section Tokens.
Context {JW : Jose.JWS} {BC : Passlib.Bcrypt} {FB : Py.FloatBuiltins}
        {DF : Py.DateFormat}.
Variable environ_SECRET_KEY : option string.

Local Abbreviation key := (SECRET_KEY environ_SECRET_KEY).
Local Abbreviation require_user :=
  (require_user_from_header environ_SECRET_KEY).

(** Seven days, in seconds. *)
Definition seven_days : Z := 7 * 24 * 60 * 60.

Lemma create_access_token_claims (t : Z) (data : Jose.payload) :
  Jose.verify (create_access_token environ_SECRET_KEY t data None) key
  = Some {| Jose.sub := Jose.p_sub data;
            Jose.exp := Some (Py.timegm (Py.utcnow t) + seven_days) |}.
Proof.
  unfold create_access_token, Jose.encode. rewrite Jose.verify_sign.
  cbn [option_map Jose.p_sub Jose.p_exp]. do 3 f_equal.
  unfold Py.timegm, Py.add_delta, Py.utcnow, Py.timedelta,
    ACCESS_TOKEN_EXPIRE_MINUTES, seven_days. cbn [Py.wall Py.tzinfo].
  rewrite !Z.sub_0_r.
  replace (t + (0 * 60 + 60 * 24 * 7) * 60 * 1000000)
    with (t + (7 * 24 * 60 * 60) * 1000000) by lia.
  apply Z.div_add. lia.
Qed.

(** C7.  A request to a protected route whose header carries no bearer
    token (no header, an empty one, or one that is not two parts of
    which the first is "bearer" in any case) is answered 401 with a
    detail, and the world is the one before the request: no token was
    decoded, no table read, nothing committed. *)
Theorem malformed_header_rejected (t : Z) (req : protected_request)
    (a : option string) (w : world) :
  bearer_token a = None ->
  serve environ_SECRET_KEY t req a w = (inl (HTTP 401 (header_detail a)), w).
Proof.
  intros H. apply serve_unauthorized.
  rewrite require_user_bearer, H. reflexivity.
Qed.

(** C6.  The token [POST /login] returns carries the expiry of its
    creation second plus seven days; and a bearer token whose signature
    is valid but whose expiry is before the current second is answered
    401 on every protected route, with no table read. *)
Theorem expired_token_rejected :
  (forall t payload w resp w',
     login environ_SECRET_KEY t payload w = (inr resp, w') ->
     exists c,
       Jose.verify (TokenResponse.access_token resp) key = Some c /\
       Jose.exp c = Some (Py.timegm (Py.utcnow t) + seven_days) /\
       seven_days * 1000000
         = Py.timedelta 0 ACCESS_TOKEN_EXPIRE_MINUTES) /\
  (forall t req a token c e w,
     bearer_token a = Some token ->
     Jose.verify token key = Some c ->
     Jose.exp c = Some e ->
     e < Py.timegm (Py.utcnow t) ->
     serve environ_SECRET_KEY t req a w
       = (inl (HTTP 401 "Could not validate credentials"),
          after [JwtDecode] w)).
Proof.
  split.
  - intros t payload w resp w'. unfold login, bind.
    unfold query_user_first, bind, emit, ret, raise. cbn.
    destruct (find _ (users (db w))) as [u|]; [|discriminate].
    destruct (negb _); [discriminate|].
    intros [= <- _]. eexists. split; [apply create_access_token_claims|].
    split; reflexivity.
  - intros t req a token c e w Hb Hv He Hlt.
    apply serve_unauthorized.
    rewrite require_user_bearer, Hb, get_current_user_from_token_run.
    unfold Jose.decode. rewrite Hv, He.
    apply Z.ltb_lt in Hlt. rewrite Hlt. reflexivity.
Qed.

(** C10.  A bearer token that is correctly signed and unexpired but has
    no subject, or whose subject is not the name of a user in the store,
    is answered 401 on every protected route and the store is left as
    it was; and whenever a protected route answers with something other
    than an error, the token's subject is the name of a user of the
    store. *)
Theorem unknown_subject_rejected (t : Z) (a : option string)
    (token : string) (c : Jose.claims) (w : world) :
  bearer_token a = Some token ->
  Jose.decode t token key = inr c ->
  match Jose.sub c with
  | None => True
  | Some name =>
      forall u, In u (users (db w)) -> UserDB.username u <> name
  end ->
  (forall req, exists w',
     serve environ_SECRET_KEY t req a w
       = (inl (HTTP 401 "Could not validate credentials"), w') /\
     db w' = db w) /\
  (forall a' req r w',
     serve environ_SECRET_KEY t req a' w = (inr r, w') ->
     exists token' c' u,
       bearer_token a' = Some token' /\
       Jose.decode t token' key = inr c' /\
       In u (users (db w)) /\
       Jose.sub c' = Some (UserDB.username u)).
Proof.
  intros Hb Hd Hs. split.
  - intros req.
    assert (E : exists w', require_user t a w
                           = (inl credentials_exception, w')
                           /\ db w' = db w).
    { rewrite require_user_bearer, Hb, get_current_user_from_token_run, Hd.
      destruct (Jose.sub c) as [[|x name]|];
        try (eexists; split; reflexivity).
      destruct (find _ (users (db w))) as [u|] eqn:Ef;
        [|eexists; split; reflexivity].
      apply find_some in Ef as [Hin Hn]. apply String.eqb_eq in Hn.
      exfalso. exact (Hs u Hin Hn). }
    destruct E as (w' & E & Hdb). exists w'. split; [|exact Hdb].
    apply serve_unauthorized. exact E.
  - intros a' req r w' Hr.
    destruct (require_user t a' w) as [[e|u] w1] eqn:E.
    + rewrite (serve_unauthorized _ _ req _ _ E) in Hr. discriminate Hr.
    + apply require_user_returns in E
        as (token' & c' & Hb' & Hd' & Hs' & _ & Hf).
      apply find_some in Hf as [Hin _].
      exists token', c', u. auto.
Qed.

End Tokens.

(** ** Registration and login *)

(** The users table of [w2] is that of [w1] with rows added at the end:
    no route removes or rewrites a user. *)
Definition users_extend (w1 w2 : world) : Prop :=
  exists more, users (db w2) = users (db w1) ++ more.

Lemma find_app_some {A : Type} (p : A -> bool) (l more : list A) (x : A) :
  find p l = Some x -> find p (l ++ more) = Some x.
Proof.
  induction l as [|y l IH]; cbn; [discriminate|].
  destruct (p y); [trivial|exact IH].
Qed.

Lemma find_app_none {A : Type} (p : A -> bool) (l more : list A) :
  find p l = None -> find p (l ++ more) = find p more.
Proof.
  induction l as [|y l IH]; cbn; [trivial|].
  destruct (p y); [discriminate|exact IH].
Qed.

Section Login.
Context {JW : Jose.JWS} {BC : Passlib.Bcrypt} {FB : Py.FloatBuiltins}
        {DF : Py.DateFormat}.
Variable environ_SECRET_KEY : option string.

Local Abbreviation key := (SECRET_KEY environ_SECRET_KEY).
Local Abbreviation require_user :=
  (require_user_from_header environ_SECRET_KEY).

(** The query by name that [register], [login] and the token check
    share. *)
Definition by_name (name : string) (u : UserDB.t) : bool :=
  String.eqb (UserDB.username u) name.

(** A successful registration leaves the new row as the one a query by
    that name finds. *)
Lemma register_row (salt : string) (user : UserCreate.t) (w0 w1 : world)
    (r : Z * string) :
  register salt user w0 = (inr r, w1) ->
  snd r = UserCreate.username user /\
  find (by_name (UserCreate.username user)) (users (db w1))
  = Some {| UserDB.id := fst r;
            UserDB.username := UserCreate.username user;
            UserDB.hashed_password :=
              Passlib.hash (UserCreate.password user) salt |}.
Proof.
  unfold register, get_password_hash, bind, query_user_first, bind, emit,
    ret, raise. cbn.
  fold (by_name (UserCreate.username user)).
  destruct (find _ (users (db w0))) as [x|] eqn:Ef; [discriminate|].
  destruct (Py.has_nul (UserCreate.password user)); [discriminate|].
  unfold add_user. cbn. intros [= <- <-]. cbn. split; [reflexivity|].
  rewrite (find_app_none _ _ _ Ef). unfold by_name. cbn.
  rewrite String.eqb_refl. reflexivity.
Qed.

(** Once authenticated, a protected route raises nothing but the 404 of
    a delete and the 500 of a value the store cannot take. *)
Lemma serve_authorized (t : Z) (req : protected_request)
    (a : option string) (w w' w'' : world) (u : UserDB.t)
    (e : HTTPException) :
  require_user t a w = (inr u, w') ->
  serve environ_SECRET_KEY t req a w = (inl e, w'') ->
  status_code e = 404 \/ status_code e = 500.
Proof.
  intros H.
  destruct req; unfold serve, fmap, add_transaction_protected,
    get_transactions_protected, delete_transaction_protected,
    summary_protected, export_csv_protected, bind;
    rewrite H; try discriminate.
  - unfold add_tx. destruct (PrimFloat.is_nan _); [|discriminate].
    intros [= <- _]. right. reflexivity.
  - unfold query_transaction_first.
    destruct (sqlite_integer tx_id);
      unfold bind, emit, ret, raise; cbn.
    + destruct (find _ _); [discriminate|].
      intros [= <- _]. left. reflexivity.
    + intros [= <- _]. right. reflexivity.
Qed.

(** Why "every later store" below is a store whose users table
    extends the one registration left: the protected routes and [login]
    leave the users table as it was, and [register] adds one row at its
    end. *)
Lemma serve_keeps_users (t : Z) (req : protected_request)
    (a : option string) (w w' : world) (r : HTTPException + response) :
  serve environ_SECRET_KEY t req a w = (r, w') ->
  users (db w') = users (db w).
Proof.
  destruct (require_user t a w) as [[e|u] w1] eqn:E;
    pose proof (require_user_db _ _ _ _ E) as Hdb.
  - rewrite (serve_unauthorized _ _ req _ _ E).
    intros [= _ <-]. rewrite Hdb. reflexivity.
  - destruct req; unfold serve, fmap, add_transaction_protected,
      get_transactions_protected, delete_transaction_protected,
      summary_protected, export_csv_protected, bind; rewrite E;
      unfold add_tx, query_transactions_desc, query_transactions,
        query_transaction_first, delete_tx, bind, emit, ret, raise; cbn.
    + destruct (PrimFloat.is_nan _); intros [= _ <-]; cbn; rewrite Hdb;
        reflexivity.
    + intros [= _ <-]. cbn. rewrite Hdb. reflexivity.
    + destruct (sqlite_integer tx_id); cbn;
        [destruct (find _ _)|]; intros [= _ <-]; cbn; rewrite Hdb;
        reflexivity.
    + intros [= _ <-]. cbn. rewrite Hdb. reflexivity.
    + intros [= _ <-]. cbn. rewrite Hdb. reflexivity.
Qed.

Lemma login_keeps_users (t : Z) (payload : UserCreate.t) (w w' : world)
    (r : HTTPException + TokenResponse.t) :
  login environ_SECRET_KEY t payload w = (r, w') ->
  users (db w') = users (db w).
Proof.
  unfold login, bind, query_user_first, bind, emit, ret, raise. cbn.
  destruct (find _ (users (db w))) as [u|];
    [destruct (negb _)|]; intros [= _ <-]; reflexivity.
Qed.

Lemma register_extends_users (salt : string) (user : UserCreate.t)
    (w w' : world) (r : HTTPException + Z * string) :
  register salt user w = (r, w') -> users_extend w w'.
Proof.
  unfold register, get_password_hash, bind, query_user_first, bind, emit,
    ret, raise, add_user, users_extend. cbn.
  destruct (find _ (users (db w))) as [u|];
    [|destruct (Py.has_nul (UserCreate.password user))];
    intros [= _ <-]; cbn.
  - exists []. symmetry. apply app_nil_r.
  - exists []. symmetry. apply app_nil_r.
  - eexists. reflexivity.
Qed.


(** C5, with the two conditions the code puts on it.  After a
    successful registration of a name that is not the empty string,
    logging in with the same name and password succeeds in every later
    store and returns a bearer token; and in every later store, up to
    and including the second the token expires, a request that carries
    "Bearer <token>" is authenticated as the registered user, so that no
    protected route answers it 401. *)
Theorem register_login_authorize (salt : string) (user : UserCreate.t)
    (w0 w1 : world) (r : Z * string) :
  UserCreate.username user <> EmptyString ->
  register salt user w0 = (inr r, w1) ->
  forall t w2, users_extend w1 w2 ->
  exists token,
    login environ_SECRET_KEY t user w2
      = (inr {| TokenResponse.access_token := token;
                TokenResponse.token_type := "bearer" |},
         after [Query] w2) /\
    forall t' w3,
      users_extend w1 w3 ->
      Py.timegm (Py.utcnow t') <= Py.timegm (Py.utcnow t) + seven_days ->
      exists u,
        require_user t' (Some ("Bearer " ++ token)%string) w3
          = (inr u, after [Query; JwtDecode] w3) /\
        UserDB.id u = fst r /\
        UserDB.username u = UserCreate.username user /\
        forall req e w4,
          serve environ_SECRET_KEY t' req
                (Some ("Bearer " ++ token)%string) w3 = (inl e, w4) ->
          status_code e <> 401.
Proof.
  intros Hne Hreg t w2 [more2 Hx2].
  apply register_row in Hreg as [_ Hrow].
  destruct user as [uname pw].
  cbn [UserCreate.username UserCreate.password] in *.
  destruct uname as [|x name]; [congruence|].
  eexists. split.
  - unfold login, bind, query_user_first, bind, emit, ret, raise. cbn.
    fold (by_name (String x name)).
    rewrite Hx2, (find_app_some _ _ _ Hrow). cbn.
    unfold verify_password. rewrite Passlib.verify_hash. reflexivity.
  - intros t' w3 [more3 Hx3] Hle.
    set (token := create_access_token _ _ _ _).
    assert (Hb : bearer_token (Some ("Bearer " ++ token)%string)
                 = Some token).
    { unfold bearer_token. rewrite split_bearer; [reflexivity|].
      apply Jose.sign_one_word. }
    eexists. split; [|split; [|split]].
    + rewrite require_user_bearer, Hb, get_current_user_from_token_run.
      unfold Jose.decode. subst token.
      rewrite create_access_token_claims. cbn [Jose.exp Jose.sub].
      apply Z.ltb_ge in Hle. rewrite Hle.
      cbn [Jose.sub Jose.p_sub UserDB.username].
      fold (by_name (String x name)).
      rewrite Hx3, (find_app_some _ _ _ Hrow). reflexivity.
    + reflexivity.
    + reflexivity.
    + intros req e w4 Hs.
      assert (Ha : exists u w', require_user t'
                     (Some ("Bearer " ++ token)%string) w3 = (inr u, w')).
      { rewrite require_user_bearer, Hb, get_current_user_from_token_run.
        unfold Jose.decode. subst token.
        rewrite create_access_token_claims. cbn [Jose.exp Jose.sub].
        apply Z.ltb_ge in Hle. rewrite Hle.
        cbn [Jose.sub Jose.p_sub UserDB.username].
        fold (by_name (String x name)).
        rewrite Hx3, (find_app_some _ _ _ Hrow). eauto. }
      destruct Ha as (u & w' & Ha).
      assert (Hst : status_code e = 404 \/ status_code e = 500)
        by (eapply serve_authorized; eassumption).
      destruct Hst as [-> | ->]; discriminate.
Qed.

End Login.

(* ================================================================== *)
(** * A worked session *)
(* ================================================================== *)

(** Two users register, log in, and fill a ledger; the theorems above
    are then applied to the stores this produces.  The signing key is
    the development default. *)

Module Session.
Import Instances.

Definition empty : world :=
  {| db := {| users := []; transactions := [] |}; trace := [] |}.

Definition alice : UserCreate.t :=
  {| UserCreate.username := "alice"; UserCreate.password := "wonderland" |}.

Definition bob : UserCreate.t :=
  {| UserCreate.username := "bob"; UserCreate.password := "builder" |}.

(** 2024-01-01T00:00:00Z, in microseconds since 1970. *)
Definition t0 : Z := 1704067200 * 1000000.
Definition hour : Z := 3600 * 1000000.
Definition day : Z := 24 * hour.

Definition registered : world :=
  snd (register "s2" bob (snd (register "s1" alice empty))).

Definition token_of (t : Z) (user : UserCreate.t) (w : world) : string :=
  match fst (login None t user w) with
  | inr r => TokenResponse.access_token r
  | inl _ => EmptyString
  end.

Definition bearer (token : string) : option string :=
  Some ("Bearer " ++ token)%string.

Definition alice_header : option string :=
  bearer (token_of t0 alice registered).

Definition bob_header : option string :=
  bearer (token_of t0 bob registered).

Definition alice_row : UserDB.t :=
  {| UserDB.id := 1; UserDB.username := "alice";
     UserDB.hashed_password := "wonderland" |}.

Definition salary : TransactionCreate.t :=
  {| TransactionCreate.title := "salary";
     TransactionCreate.amount := 0x1.90051eb851eb8p+6%float;
     TransactionCreate.type := "income";
     TransactionCreate.category := None;
     TransactionCreate.date := None |}.

(** A date without offset, ten hours into [t0]. *)
Definition rent : TransactionCreate.t :=
  {| TransactionCreate.title := "rent";
     TransactionCreate.amount := 30%float;
     TransactionCreate.type := "expense";
     TransactionCreate.category := Some "home"%string;
     TransactionCreate.date :=
       Some {| Py.wall := t0 + 10 * hour; Py.tzinfo := None |} |}.

Definition refund : TransactionCreate.t :=
  {| TransactionCreate.title := "refund";
     TransactionCreate.amount := (-5)%float;
     TransactionCreate.type := "expense";
     TransactionCreate.category := None;
     TransactionCreate.date := None |}.

Definition gift : TransactionCreate.t :=
  {| TransactionCreate.title := "gift";
     TransactionCreate.amount := 12.5%float;
     TransactionCreate.type := "income";
     TransactionCreate.category := None;
     TransactionCreate.date := None |}.

(** Alice adds her salary at [t0 + 1h] and her rent; Bob adds a gift at
    [t0 + 2h]. *)
Definition ledger : world :=
  let w1 := snd (add_transaction_protected None (t0 + hour) (t0 + hour)
                   salary alice_header registered) in
  let w2 := snd (add_transaction_protected None (t0 + 2 * hour)
                   (t0 + 2 * hour) gift bob_header w1) in
  snd (add_transaction_protected None (t0 + 3 * hour) (t0 + 3 * hour)
         rent alice_header w2).

Definition authenticated (w : world) : world := after [Query; JwtDecode] w.

(** The row Alice's rent becomes in [ledger]. *)
Definition rent_row : TransactionDB.t :=
  {| TransactionDB.id := 3;
     TransactionDB.title := "rent";
     TransactionDB.amount := 30%float;
     TransactionDB.type := "expense";
     TransactionDB.category := Some "home"%string;
     TransactionDB.date :=
       {| Py.wall := t0 + 10 * hour; Py.tzinfo := None |};
     TransactionDB.owner_id := 1 |}.

(** ** The theorems at work *)

Lemma summary_totals_witness :
  require_user_from_header None (t0 + day) alice_header ledger
    = (inr alice_row, authenticated ledger) /\
  exists s,
    summary_protected None (t0 + day) alice_header ledger
      = (inr s, after [Query] (authenticated ledger)) /\
    SummaryResponse.total_income s = 100%float /\
    SummaryResponse.total_expense s = 30%float /\
    SummaryResponse.net_balance s = 70%float.
Proof.
  assert (H : require_user_from_header None (t0 + day) alice_header ledger
              = (inr alice_row, authenticated ledger))
    by (vm_compute; reflexivity).
  split; [exact H|].
  destruct (summary_totals None _ _ _ H) as (s & E & Hi & He & Hn).
  exists s. split; [exact E|].
  rewrite Hn, Hi, He.
  split; [|split]; vm_compute; reflexivity.
Defined.

Lemma delete_owned_only_witness :
  require_user_from_header None (t0 + day) alice_header ledger
    = (inr alice_row, authenticated ledger) /\
  sqlite_integer 3 = true /\ sqlite_integer 2 = true /\
  (exists msg w'',
     delete_transaction_protected None (t0 + day) 3 alice_header ledger
       = (inr msg, w'') /\
     map TransactionDB.id (transactions (db w'')) = [1; 2]) /\
  delete_transaction_protected None (t0 + day) 2 alice_header ledger
    = (inl (HTTP 404 "Transaction not found"),
       after [Query] (authenticated ledger)).
Proof.
  assert (H : require_user_from_header None (t0 + day) alice_header ledger
              = (inr alice_row, authenticated ledger))
    by (vm_compute; reflexivity).
  split; [exact H|]. split; [reflexivity|]. split; [reflexivity|]. split.
  - destruct (delete_owned_only None _ 3 _ _ H eq_refl) as (_ & Hok & _).
    destruct Hok as (msg & w'' & E & Htx & _).
    { exists rent_row. vm_compute.
      split; [right; right; left; reflexivity|]. split; reflexivity. }
    exists msg, w''. split; [exact E|]. rewrite Htx.
    vm_compute. reflexivity.
  - destruct (delete_owned_only None _ 2 _ _ H eq_refl) as (_ & _ & Hno).
    apply Hno. intros (r & Hin & Hid & Ho).
    vm_compute in Hin.
    destruct Hin as [<-|[<-|[<-|[]]]]; discriminate.
Defined.

(** An id one past the signed 64-bit range: no row has it, and the
    answer is 500, not 404. *)
Lemma delete_huge_id_counterexample :
  require_user_from_header None (t0 + day) alice_header ledger
    = (inr alice_row, authenticated ledger) /\
  ~ In (2 ^ 63) (map TransactionDB.id (transactions (db ledger))) /\
  delete_transaction_protected None (t0 + day) (2 ^ 63) alice_header ledger
    = (inl (HTTP 500 "Internal Server Error"), authenticated ledger) /\
  HTTP 500 "Internal Server Error" <> HTTP 404 "Transaction not found".
Proof.
  split; [vm_compute; reflexivity|]. split.
  - vm_compute. intros [H|[H|[H|[]]]]; discriminate H.
  - split; [vm_compute; reflexivity|discriminate].
Qed.

(** Three requests of Alice whose dates carry different offsets. *)
Definition dated (title : string) (d : Py.datetime) : TransactionCreate.t :=
  {| TransactionCreate.title := title;
     TransactionCreate.amount := 1%float;
     TransactionCreate.type := "expense";
     TransactionCreate.category := None;
     TransactionCreate.date := Some d |}.

(** 2024-01-01T10:00:00+05:30, which is 04:30 UTC. *)
Definition delhi_date : Py.datetime :=
  {| Py.wall := t0 + 10 * hour; Py.tzinfo := Some IST |}.

(** 2024-01-01T09:00:00+00:00, which is 09:00 UTC: the latest. *)
Definition london_date : Py.datetime :=
  {| Py.wall := t0 + 9 * hour; Py.tzinfo := Some 0 |}.

(** 2024-01-01T12:00:00+09:00, which is 03:00 UTC: the earliest. *)
Definition tokyo_date : Py.datetime :=
  {| Py.wall := t0 + 12 * hour; Py.tzinfo := Some (9 * hour) |}.

Definition mixed_offsets : world :=
  let w1 := snd (add_transaction_protected None (t0 + day) (t0 + day)
                   (dated "delhi" delhi_date) alice_header registered) in
  let w2 := snd (add_transaction_protected None (t0 + day) (t0 + day)
                   (dated "london" london_date) alice_header w1) in
  snd (add_transaction_protected None (t0 + day) (t0 + day)
         (dated "tokyo" tokyo_date) alice_header w2).

(** C3, at requests the code handles otherwise.  Alice adds three
    transactions dated, in order of their instants, tokyo < delhi <
    london.  The listing gives them as tokyo, delhi, london: ordered by
    the wall-clock readings the table kept (12:00, 10:00, 09:00), with
    the most recent one last. *)
Lemma mixed_offsets_listed_out_of_order :
  Py.instant tokyo_date < Py.instant delhi_date /\
  Py.instant delhi_date < Py.instant london_date /\
  exists rows,
    get_transactions_protected None (t0 + 2 * day) alice_header mixed_offsets
      = (inr rows, after [Query] (authenticated mixed_offsets)) /\
    map TransactionDB.title rows = ["tokyo"; "delhi"; "london"]%string /\
    map TransactionDB.id rows = [3; 1; 2].
Proof.
  split; [reflexivity|]. split; [reflexivity|].
  eexists. split; [vm_compute; reflexivity|].
  split; reflexivity.
Qed.

Lemma list_and_export_order_witness :
  require_user_from_header None (t0 + day) alice_header ledger
    = (inr alice_row, authenticated ledger) /\
  exists rows resp,
    get_transactions_protected None (t0 + day) alice_header ledger
      = (inr rows, after [Query] (authenticated ledger)) /\
    map TransactionDB.id rows = [3; 1] /\
    StronglySorted
      (fun x y => Py.wall (TransactionDB.date y)
                  <= Py.wall (TransactionDB.date x)) rows /\
    export_csv_protected None (t0 + day) alice_header ledger
      = (inr resp, after [Query] (authenticated ledger)) /\
    StreamingResponse.body resp
      = csv_header :: map (fun r => Csv.writerow (csv_record r)) rows.
Proof.
  assert (H : require_user_from_header None (t0 + day) alice_header ledger
              = (inr alice_row, authenticated ledger))
    by (vm_compute; reflexivity).
  split; [exact H|].
  destruct (list_and_export_order None _ _ _ H) as (rows & resp & E & _ & Hs & E' & Hb).
  exists rows, resp. split; [exact E|].
  split; [|split; [exact Hs|split; [exact E'|exact Hb]]].
  assert (Er : fst (get_transactions_protected None (t0 + day) alice_header
                      ledger) = inr rows) by (rewrite E; reflexivity).
  vm_compute in Er. injection Er as <-. reflexivity.
Defined.

Lemma add_transaction_date_witness :
  require_user_from_header None (t0 + hour) alice_header registered
    = (inr alice_row, authenticated registered) /\
  PrimFloat.is_nan (TransactionCreate.amount salary) = false /\
  PrimFloat.is_nan (TransactionCreate.amount rent) = false /\
  (exists row w'',
     add_transaction_protected None (t0 + hour) (t0 + hour) salary
       alice_header registered = (inr row, w'') /\
     TransactionDB.date row
       = {| Py.wall := t0 + hour + IST; Py.tzinfo := None |}) /\
  (exists row w'',
     add_transaction_protected None (t0 + hour) (t0 + hour) rent
       alice_header registered = (inr row, w'') /\
     TransactionDB.date row
       = {| Py.wall := t0 + 10 * hour; Py.tzinfo := None |}).
Proof.
  assert (H : require_user_from_header None (t0 + hour) alice_header
                registered = (inr alice_row, authenticated registered))
    by (vm_compute; reflexivity).
  split; [exact H|]. split; [reflexivity|]. split; [reflexivity|]. split.
  - destruct (add_transaction_date None _ (t0 + hour) salary _ _ H eq_refl)
      as (row & w'' & E & _ & _ & Hnone & _).
    exists row, w''. split; [exact E|]. apply Hnone. reflexivity.
  - destruct (add_transaction_date None _ (t0 + hour) rent _ _ H eq_refl)
      as (row & w'' & E & _ & _ & _ & Hnaive).
    exists row, w''. split; [exact E|].
    apply (Hnaive _ eq_refl eq_refl).
Defined.

(** C4, at a request the code handles otherwise.  Alice adds her rent
    with the date 2024-01-01T10:00:00, which has no offset.  The handler
    tags it with +05:30 and hands it to the store; the row that is
    stored and returned reads 10:00:00 with no offset at all. *)
Lemma naive_date_stored_without_offset :
  TransactionCreate.date rent
    = Some {| Py.wall := t0 + 10 * hour; Py.tzinfo := None |} /\
  exists row w'',
    add_transaction_protected None (t0 + hour) (t0 + hour) rent
      alice_header registered = (inr row, w'') /\
    In row (transactions (db w'')) /\
    TransactionDB.date row
      = {| Py.wall := t0 + 10 * hour; Py.tzinfo := None |} /\
    TransactionDB.date row
      <> {| Py.wall := t0 + 10 * hour; Py.tzinfo := Some IST |}.
Proof.
  split; [reflexivity|].
  do 2 eexists. split; [vm_compute; reflexivity|].
  split; [left; reflexivity|]. split; [reflexivity|discriminate].
Qed.

Definition nan_gift : TransactionCreate.t :=
  {| TransactionCreate.title := "gift";
     TransactionCreate.amount := PrimFloat.nan;
     TransactionCreate.type := "income";
     TransactionCreate.category := None;
     TransactionCreate.date := None |}.

Lemma add_transaction_amount_witness :
  require_user_from_header None (t0 + hour) alice_header registered
    = (inr alice_row, authenticated registered) /\
  PrimFloat.is_nan (TransactionCreate.amount refund) = false /\
  PrimFloat.is_nan (TransactionCreate.amount nan_gift) = true /\
  (exists row w'',
     add_transaction_protected None (t0 + hour) (t0 + hour) refund
       alice_header registered = (inr row, w'') /\
     TransactionDB.amount row = (-5)%float) /\
  add_transaction_protected None (t0 + hour) (t0 + hour) nan_gift
    alice_header registered
  = (inl (HTTP 500 "Internal Server Error"), authenticated registered).
Proof.
  assert (H : require_user_from_header None (t0 + hour) alice_header
                registered = (inr alice_row, authenticated registered))
    by (vm_compute; reflexivity).
  split; [exact H|]. split; [reflexivity|]. split; [reflexivity|]. split.
  - destruct (proj1 (add_transaction_amount None _ (t0 + hour) refund _ _ H)
                    eq_refl)
      as (row & w'' & E & _ & _ & Ha).
    exists row, w''. split; [exact E|exact Ha].
  - exact (proj2 (add_transaction_amount None _ (t0 + hour) nan_gift _ _ H)
                 eq_refl).
Defined.

(** A negative amount goes into the store as it is. *)
Lemma negative_amount_counterexample :
  exists row w'',
    add_transaction_protected None (t0 + hour) (t0 + hour) refund
      alice_header registered = (inr row, w'') /\
    In row (transactions (db w'')) /\
    PrimFloat.ltb (TransactionDB.amount row) 0%float = true.
Proof.
  do 2 eexists. split; [vm_compute; reflexivity|].
  split; [left; reflexivity|reflexivity].
Qed.

Lemma malformed_header_rejected_witness :
  bearer_token (Some "Basic YWxpY2U6d29uZGVybGFuZA=="%string) = None /\
  serve None (t0 + day) GetSummary
        (Some "Basic YWxpY2U6d29uZGVybGFuZA=="%string) ledger
    = (inl (HTTP 401 "Invalid auth header"), ledger).
Proof.
  assert (H : bearer_token (Some "Basic YWxpY2U6d29uZGVybGFuZA=="%string)
              = None) by (vm_compute; reflexivity).
  split; [exact H|].
  exact (malformed_header_rejected None (t0 + day) GetSummary _ ledger H).
Defined.

(** Alice's token of [t0], shown eight days later. *)
Lemma expired_token_rejected_witness :
  bearer_token alice_header = Some (token_of t0 alice registered) /\
  Jose.verify (token_of t0 alice registered) (SECRET_KEY None)
    = Some {| Jose.sub := Some "alice"%string;
              Jose.exp := Some (1704067200 + seven_days) |} /\
  1704067200 + seven_days < Py.timegm (Py.utcnow (t0 + 8 * day)) /\
  serve None (t0 + 8 * day) GetSummary alice_header ledger
    = (inl (HTTP 401 "Could not validate credentials"),
       after [JwtDecode] ledger).
Proof.
  assert (Hb : bearer_token alice_header
               = Some (token_of t0 alice registered))
    by (vm_compute; reflexivity).
  assert (Hv : Jose.verify (token_of t0 alice registered) (SECRET_KEY None)
               = Some {| Jose.sub := Some "alice"%string;
                         Jose.exp := Some (1704067200 + seven_days) |})
    by (vm_compute; reflexivity).
  assert (Hlt : 1704067200 + seven_days
                < Py.timegm (Py.utcnow (t0 + 8 * day)))
    by (vm_compute; reflexivity).
  split; [exact Hb|]. split; [exact Hv|]. split; [exact Hlt|].
  exact (proj2 (expired_token_rejected None) (t0 + 8 * day) GetSummary
               alice_header _ _ _ ledger Hb Hv eq_refl Hlt).
Defined.

(** A token signed with the service's key for a name nobody has. *)
Definition carol_token : string :=
  Jose.sign {| Jose.sub := Some "carol"%string; Jose.exp := None |}
            (SECRET_KEY None).

Lemma unknown_subject_rejected_witness :
  bearer_token (bearer carol_token) = Some carol_token /\
  Jose.decode (t0 + day) carol_token (SECRET_KEY None)
    = inr {| Jose.sub := Some "carol"%string; Jose.exp := None |} /\
  exists w',
    serve None (t0 + day) GetSummary (bearer carol_token) ledger
      = (inl (HTTP 401 "Could not validate credentials"), w') /\
    db w' = db ledger.
Proof.
  assert (Hb : bearer_token (bearer carol_token) = Some carol_token)
    by (vm_compute; reflexivity).
  assert (Hd : Jose.decode (t0 + day) carol_token (SECRET_KEY None)
               = inr {| Jose.sub := Some "carol"%string; Jose.exp := None |})
    by (vm_compute; reflexivity).
  split; [exact Hb|]. split; [exact Hd|].
  refine (proj1 (unknown_subject_rejected None (t0 + day) _ ledger Hb Hd _)
                GetSummary).
  cbn [Jose.sub]. intros u Hin. vm_compute in Hin.
  destruct Hin as [<-|[<-|[]]]; discriminate.
Defined.




Lemma register_login_authorize_witness :
  UserCreate.username alice <> EmptyString /\
  register "s1" alice empty
    = (inr (1, "alice"%string), snd (register "s1" alice empty)) /\
  exists token,
    login None t0 alice ledger
      = (inr {| TokenResponse.access_token := token;
                TokenResponse.token_type := "bearer" |},
         after [Query] ledger) /\
    exists u,
      require_user_from_header None (t0 + 7 * day) (bearer token) ledger
        = (inr u, authenticated ledger) /\
      UserDB.id u = 1 /\
      UserDB.username u = "alice"%string.
Proof.
  assert (Hne : UserCreate.username alice <> EmptyString) by discriminate.
  assert (Hreg : register "s1" alice empty
                 = (inr (1, "alice"%string),
                    snd (register "s1" alice empty)))
    by (vm_compute; reflexivity).
  assert (Hx : users_extend (snd (register "s1" alice empty)) ledger).
  { exists (skipn 1 (users (db ledger))). vm_compute. reflexivity. }
  split; [exact Hne|]. split; [exact Hreg|].
  destruct (register_login_authorize None "s1" alice empty Hne Hreg t0 Hx)
    as (token & Hl & Hauth).
  exists token. split; [exact Hl|].
  assert (Hle : Py.timegm (Py.utcnow (t0 + 7 * day))
                <= Py.timegm (Py.utcnow t0) + seven_days)
    by (vm_compute; discriminate).
  destruct (Hauth (t0 + 7 * day) ledger Hx Hle) as (u & Hu & Hid & Hn & _).
  exists u. split; [exact Hu|]. split; [exact Hid|exact Hn].
Defined.

(** Registering the empty name succeeds, logging in with it succeeds,
    and the token that comes back is refused on every protected
    route: the token check takes an empty subject for a missing one. *)
Lemma empty_username_counterexample :
  let nobody := {| UserCreate.username := EmptyString;
                   UserCreate.password := "secret" |} in
  exists w1 resp w2,
    register "s0" nobody empty = (inr (1, EmptyString), w1) /\
    login None t0 nobody w1 = (inr resp, w2) /\
    forall req,
      serve None t0 req (bearer (TokenResponse.access_token resp)) w1
      = (inl (HTTP 401 "Could not validate credentials"),
         after [JwtDecode] w1).
Proof.
  do 3 eexists. split; [vm_compute; reflexivity|].
  split; [vm_compute; reflexivity|].
  intros req. apply serve_unauthorized. vm_compute. reflexivity.
Qed.

End Session.

(* ================================================================== *)
(** * Further properties of the routes *)
(* ================================================================== *)

(** The three routes that only read. *)
Definition reads_only (req : protected_request) : bool :=
  match req with
  | GetTransactions | GetSummary | GetExportCsv => true
  | PostTxAdd _ _ | DeleteTransaction _ => false
  end.

(** A string of white space only. *)
Fixpoint blank (s : string) : bool :=
  match s with
  | EmptyString => true
  | String c s' => Py.isspace c && blank s'
  end.

Lemma append_snoc (w : string) (c : ascii) (s : string) :
  ((w ++ String c EmptyString) ++ s = w ++ String c s)%string.
Proof. induction w as [|a w IH]; cbn; congruence. Qed.

Lemma split_from_none_blank (p s : string) :
  blank p = true ->
  Py.split_from None (p ++ s) = Py.split_from None s.
Proof.
  induction p as [|c p IH]; cbn; [trivial|].
  intros H. apply andb_true_iff in H as [Hc Hp].
  rewrite Hc. exact (IH Hp).
Qed.

Lemma split_from_some_word (x s w : string) :
  Py.no_space x = true ->
  Py.split_from (Some w) (x ++ s) = Py.split_from (Some (w ++ x)%string) s.
Proof.
  revert w. induction x as [|c x IH]; intros w H; cbn.
  - f_equal. f_equal. induction w as [|a w IHw]; cbn; congruence.
  - cbn in H. apply andb_true_iff in H as [Hc Hx].
    apply negb_true_iff in Hc. rewrite Hc.
    rewrite (IH _ Hx), append_snoc. reflexivity.
Qed.

Lemma split_from_none_word (x s : string) :
  Py.one_word x = true ->
  Py.split_from None (x ++ s) = Py.split_from (Some x) s.
Proof.
  destruct x as [|c x]; [discriminate|]. cbn.
  intros H. apply andb_true_iff in H as [Hc Hx].
  apply negb_true_iff in Hc. rewrite Hc.
  exact (split_from_some_word _ _ _ Hx).
Qed.

Lemma split_from_some_blank (p s w : string) :
  blank p = true -> p <> EmptyString ->
  Py.split_from (Some w) (p ++ s) = w :: Py.split_from None s.
Proof.
  destruct p as [|c p]; [congruence|]. cbn.
  intros H _. apply andb_true_iff in H as [Hc Hp].
  rewrite Hc. f_equal. exact (split_from_none_blank _ _ Hp).
Qed.

Lemma split_from_some_end (p w : string) :
  blank p = true -> Py.split_from (Some w) p = [w].
Proof.
  destruct p as [|c p]; [reflexivity|]. cbn.
  intros H. apply andb_true_iff in H as [Hc Hp].
  rewrite Hc. f_equal.
  induction p as [|d p IH]; [reflexivity|]. cbn in *.
  apply andb_true_iff in Hp as [Hd Hp]. rewrite Hd. exact (IH Hp).
Qed.

(** [Py.split] reads two words whatever white space surrounds them. *)
Lemma split_two_words (p1 x p2 y p3 : string) :
  blank p1 = true -> blank p2 = true -> p2 <> EmptyString ->
  blank p3 = true ->
  Py.one_word x = true -> Py.one_word y = true ->
  Py.split (p1 ++ x ++ p2 ++ y ++ p3) = [x; y].
Proof.
  intros H1 H2 Hne H3 Hx Hy. unfold Py.split.
  rewrite split_from_none_blank by exact H1.
  rewrite split_from_none_word by exact Hx.
  rewrite split_from_some_blank by assumption.
  rewrite split_from_none_word by exact Hy.
  rewrite split_from_some_end by exact H3. reflexivity.
Qed.

(** What the routes keep true of the store: ids and names are not
    reused, every transaction belongs to a user of the store, and no
    stored date carries an offset. *)
Record well_formed (s : store) : Prop := {
  wf_user_ids : NoDup (map UserDB.id (users s));
  wf_usernames : NoDup (map UserDB.username (users s));
  wf_tx_ids : NoDup (map TransactionDB.id (transactions s));
  wf_owner : forall r, In r (transactions s) ->
             exists u, In u (users s) /\
                       UserDB.id u = TransactionDB.owner_id r;
  wf_dates : forall r, In r (transactions s) ->
             Py.tzinfo (TransactionDB.date r) = None
}.

Lemma NoDup_snoc {A : Type} (l : list A) (x : A) :
  NoDup l -> ~ In x l -> NoDup (l ++ [x]).
Proof.
  intros Hl Hx. induction Hl as [|y l Hy Hl IH]; cbn.
  - constructor; [intros []|constructor].
  - constructor.
    + rewrite in_app_iff. intros [Hin|[->|[]]]; [exact (Hy Hin)|].
      apply Hx. left. reflexivity.
    + apply IH. intros Hin. apply Hx. right. exact Hin.
Qed.

Lemma NoDup_map_filter {V K : Type} (key : V -> K) (keep : V -> bool)
    (rows : list V) (Hkeys : NoDup (map key rows)) :
  NoDup (map key (filter keep rows)).
Proof.
  revert Hkeys. induction rows as [|x rows IH]; cbn; [trivial|].
  intros Hn. inversion Hn as [|? ? Hx Hl]; subst.
  destruct (keep x); cbn; [constructor|]; auto.
  intros Hin. apply Hx. apply in_map_iff in Hin as (y & Hy & Hin).
  apply filter_In in Hin as [Hin _]. apply in_map_iff. eauto.
Qed.

Section Routes.
Context {JW : Jose.JWS} {BC : Passlib.Bcrypt} {FB : Py.FloatBuiltins}
        {DF : Py.DateFormat}.
Variable environ_SECRET_KEY : option string.

Local Abbreviation key := (SECRET_KEY environ_SECRET_KEY).
Local Abbreviation require_user :=
  (require_user_from_header environ_SECRET_KEY).

Ltac unfold_routes :=
  unfold serve, fmap, add_transaction_protected,
    get_transactions_protected, delete_transaction_protected,
    summary_protected, export_csv_protected, bind.

Ltac unfold_store :=
  unfold add_tx, add_user, delete_tx, get_password_hash,
    query_transactions_desc, query_transactions, query_transaction_first,
    query_user_first, bind, emit, ret, raise.

(** Where a successful header check leaves the world, and whom it
    returns. *)
Lemma require_user_world (t : Z) (a : option string) (w w' : world)
    (u : UserDB.t) :
  require_user t a w = (inr u, w') ->
  w' = after [Query; JwtDecode] w /\
  find (by_name (UserDB.username u)) (users (db w)) = Some u.
Proof.
  intros H. split.
  - revert H. rewrite require_user_bearer.
    destruct (bearer_token a) as [token|]; [|discriminate].
    rewrite get_current_user_from_token_run.
    destruct (Jose.decode t token key) as [e'|c]; [discriminate|].
    destruct (Jose.sub c) as [[|x name]|]; try discriminate.
    destruct (find _ (users (db w))); [|discriminate].
    intros [= _ <-]. reflexivity.
  - apply require_user_returns in H as (token & c & _ & _ & _ & _ & Hf).
    exact Hf.
Qed.

(** The header check looks at the users table and at nothing else of
    the world. *)
Lemma require_user_same_users (t : Z) (a : option string) (w1 w2 : world) :
  users (db w1) = users (db w2) ->
  fst (require_user t a w1) = fst (require_user t a w2).
Proof.
  intros Hu. rewrite !require_user_bearer.
  destruct (bearer_token a) as [token|]; [|reflexivity].
  rewrite !get_current_user_from_token_run.
  destruct (Jose.decode t token key) as [e'|c]; [reflexivity|].
  destruct (Jose.sub c) as [[|x name]|]; try reflexivity.
  rewrite Hu. destruct (find _ (users (db w2))); reflexivity.
Qed.

(** The header check decodes and reads; it commits nothing. *)
Lemma require_user_events (t : Z) (a : option string) (w w' : world)
    (r : HTTPException + UserDB.t) :
  require_user t a w = (r, w') ->
  exists events, w' = after events w /\
                 Forall (fun e => e <> Commit) events.
Proof.
  rewrite require_user_bearer.
  destruct (bearer_token a) as [token|].
  - rewrite get_current_user_from_token_run.
    destruct (Jose.decode t token key) as [e'|c].
    { intros [= _ <-]. exists [JwtDecode].
      split; [reflexivity|]. repeat constructor; discriminate. }
    destruct (Jose.sub c) as [[|x name]|];
      try (intros [= _ <-]; exists [JwtDecode];
           split; [reflexivity|]; repeat constructor; discriminate).
    destruct (find _ (users (db w))); intros [= _ <-];
      exists [Query; JwtDecode];
      (split; [reflexivity|]); repeat constructor; discriminate.
  - intros [= _ <-]. exists []. split; [destruct w; reflexivity|].
    constructor.
Qed.

(** X4.  A protected route or a registration that answers with an
    exception leaves both tables exactly as they were. *)
Theorem errors_leave_store :
  (forall t req a w e w',
     serve environ_SECRET_KEY t req a w = (inl e, w') -> db w' = db w) /\
  (forall salt user w e w',
     register salt user w = (inl e, w') -> db w' = db w).
Proof.
  split.
  - intros t req a w e w'.
    destruct (require_user t a w) as [[e1|u] w1] eqn:E;
      pose proof (require_user_db _ _ _ _ E) as Hdb.
    + rewrite (serve_unauthorized _ _ req _ _ E).
      intros [= _ <-]. exact Hdb.
    + destruct req; unfold_routes; rewrite E; unfold_store; cbn;
        try discriminate.
      * destruct (PrimFloat.is_nan _); [|discriminate].
        intros [= _ <-]. exact Hdb.
      * destruct (sqlite_integer tx_id); cbn;
          [destruct (find _ _); [discriminate|]|];
          intros [= _ <-]; exact Hdb.
  - intros salt user w e w'. unfold register. unfold_store. cbn.
    destruct (find _ (users (db w)));
      [|destruct (Py.has_nul _); [|discriminate]];
      intros [= _ <-]; reflexivity.
Qed.

(** X5.  Listing, summary, export and login never write: whatever they
    answer, both tables are as they were and no commit was made. *)
Theorem reads_leave_store :
  (forall t req a w r w',
     reads_only req = true ->
     serve environ_SECRET_KEY t req a w = (r, w') ->
     db w' = db w /\
     exists events, w' = after events w /\ ~ In Commit events) /\
  (forall t payload w r w',
     login environ_SECRET_KEY t payload w = (r, w') ->
     db w' = db w /\
     exists events, w' = after events w /\ ~ In Commit events).
Proof.
  assert (Hno : forall evs, Forall (fun e => e <> Commit) evs ->
                            ~ In Commit evs).
  { intros evs Hf Hin. rewrite Forall_forall in Hf.
    exact (Hf _ Hin eq_refl). }
  split.
  - intros t req a w r w' Hread.
    destruct (require_user t a w) as [[e1|u] w1] eqn:E.
    + rewrite (serve_unauthorized _ _ req _ _ E). intros [= _ <-].
      destruct (require_user_events _ _ _ E) as (evs & -> & Hevs).
      split; [reflexivity|]. exists evs. split; [reflexivity|].
      apply Hno, Hevs.
    + apply require_user_world in E as Hw. destruct Hw as [-> _].
      destruct req; try discriminate Hread;
        unfold_routes; rewrite E; unfold_store; cbn;
        intros [= _ <-]; (split; [reflexivity|]);
        exists [Query; Query; JwtDecode]; (split; [reflexivity|]);
        apply Hno; repeat constructor; discriminate.
  - intros t payload w r w'. unfold login. unfold_store. cbn.
    destruct (find _ (users (db w))) as [u|];
      [destruct (negb _)|]; intros [= _ <-];
      (split; [reflexivity|]); exists [Query];
      (split; [reflexivity|]); apply Hno; repeat constructor; discriminate.
Qed.

(** ** Registration and login, both ways *)

Lemma next_id_above (ids : list Z) (x : Z) :
  In x ids -> x < next_id ids.
Proof.
  unfold next_id.
  induction ids as [|y ids IH]; cbn [fold_right In]; [contradiction|].
  intros [->|Hin]; [lia|]. specialize (IH Hin). lia.
Qed.

Lemma next_id_fresh (ids : list Z) : ~ In (next_id ids) ids.
Proof. intros Hin. apply next_id_above in Hin. lia. Qed.

Lemma find_by_name_none (name : string) (l : list UserDB.t) :
  find (by_name name) l = None <->
  ~ exists u, In u l /\ UserDB.username u = name.
Proof.
  split.
  - intros Hf (u & Hin & Hn).
    pose proof (find_none _ _ Hf u Hin) as Hp.
    unfold by_name in Hp. rewrite Hn, String.eqb_refl in Hp.
    discriminate Hp.
  - intros Hno. destruct (find (by_name name) l) as [u|] eqn:Ef;
      [|reflexivity].
    apply find_some in Ef as [Hin Hn]. apply String.eqb_eq in Hn.
    exfalso. apply Hno. exists u. auto.
Qed.


(** X2.  Once a name is registered, registering it again is refused in
    every later store, whatever the password. *)
Theorem register_twice_refused (salt : string) (user : UserCreate.t)
    (w0 w1 : world) (r : Z * string) :
  register salt user w0 = (inr r, w1) ->
  forall salt' password' w2,
    users_extend w1 w2 ->
    register salt'
      {| UserCreate.username := UserCreate.username user;
         UserCreate.password := password' |} w2
    = (inl (HTTP 400 "Username already exists"), after [Query] w2).
Proof.
  intros Hreg salt' password' w2 [more Hx].
  apply register_row in Hreg as [_ Hrow].
  unfold register. unfold_store. cbn.
  fold (by_name (UserCreate.username user)).
  rewrite Hx, (find_app_some _ _ _ Hrow). reflexivity.
Qed.

(** X3.  A login succeeds exactly when the row the name selects has a
    hash that verifies against the password; the token it then returns
    is of type "bearer" and carries that name as its subject. *)
Theorem login_succeeds_iff (t : Z) (payload : UserCreate.t) (w : world) :
  ((exists resp w', login environ_SECRET_KEY t payload w = (inr resp, w'))
   <->
   (exists u,
      find (by_name (UserCreate.username payload)) (users (db w)) = Some u /\
      verify_password (UserCreate.password payload)
                      (UserDB.hashed_password u) = true)) /\
  (forall resp w',
     login environ_SECRET_KEY t payload w = (inr resp, w') ->
     TokenResponse.token_type resp = "bearer"%string /\
     exists c,
       Jose.verify (TokenResponse.access_token resp) key = Some c /\
       Jose.sub c = Some (UserCreate.username payload)).
Proof.
  unfold login. unfold_store. cbn.
  fold (by_name (UserCreate.username payload)).
  destruct (find (by_name (UserCreate.username payload)) (users (db w)))
    as [u|] eqn:Ef.
  - pose proof (find_some _ _ Ef) as [_ Hn]. apply String.eqb_eq in Hn.
    destruct (verify_password _ _) eqn:Ev; cbn.
    + split.
      * split; [intros _; exists u; auto|].
        intros _. do 2 eexists. reflexivity.
      * intros resp w' [= <- _]. cbn. split; [reflexivity|].
        eexists. split; [apply create_access_token_claims|].
        cbn. rewrite Hn. reflexivity.
    + split.
      * split; [intros (resp & w' & E); discriminate E|].
        intros (u' & [= <-] & Hv). congruence.
      * intros resp w' E. discriminate E.
  - split.
    + split; [intros (resp & w' & E); discriminate E|].
      intros (u' & E & _). discriminate E.
    + intros resp w' E. discriminate E.
Qed.

(** ** What every reachable store satisfies *)

(** One request, answered. *)
Inductive step : world -> world -> Prop :=
| step_register (salt : string) (user : UserCreate.t) (w w' : world)
    (r : HTTPException + Z * string) :
    register salt user w = (r, w') -> step w w'
| step_login (t : Z) (payload : UserCreate.t) (w w' : world)
    (r : HTTPException + TokenResponse.t) :
    login environ_SECRET_KEY t payload w = (r, w') -> step w w'
| step_serve (t : Z) (req : protected_request) (a : option string)
    (w w' : world) (r : HTTPException + response) :
    serve environ_SECRET_KEY t req a w = (r, w') -> step w w'.

(** The worlds the service gets to from empty tables. *)
Inductive reachable : world -> Prop :=
| reachable_start (events : list event) :
    reachable {| db := {| users := []; transactions := [] |};
                 trace := events |}
| reachable_step (w w' : world) :
    reachable w -> step w w' -> reachable w'.

(** What a protected route does to the store: nothing, one row added at
    the end, or the rows of one id removed. *)
Lemma serve_store (t : Z) (req : protected_request) (a : option string)
    (w w' : world) (r : HTTPException + response) :
  serve environ_SECRET_KEY t req a w = (r, w') ->
  db w' = db w \/
  (exists u row,
     In u (users (db w)) /\
     db w' = {| users := users (db w);
                transactions := transactions (db w) ++ [row] |} /\
     TransactionDB.id row
       = next_id (map TransactionDB.id (transactions (db w))) /\
     TransactionDB.owner_id row = UserDB.id u /\
     Py.tzinfo (TransactionDB.date row) = None) \/
  (exists tx_id,
     db w' = {| users := users (db w);
                transactions :=
                  filter (fun x => negb (TransactionDB.id x =? tx_id))
                         (transactions (db w)) |}).
Proof.
  destruct (require_user t a w) as [[e1|u] w1] eqn:E;
    pose proof (require_user_db _ _ _ _ E) as Hdb.
  - rewrite (serve_unauthorized _ _ req _ _ E).
    intros [= _ <-]. left. exact Hdb.
  - apply require_user_world in E as Hw. destruct Hw as [_ Hf].
    apply find_some in Hf as [Hin _].
    destruct req; unfold_routes; rewrite E; unfold_store;
      cbn -[next_id].
    + destruct (PrimFloat.is_nan _);
        [intros [= _ <-]; left; exact Hdb|].
      intros [= _ <-]. right. left. exists u. eexists.
      split; [exact Hin|]. cbn -[next_id]. rewrite Hdb.
      repeat split.
    + intros [= _ <-]. left. exact Hdb.
    + destruct (sqlite_integer tx_id); cbn;
        [|intros [= _ <-]; left; exact Hdb].
      destruct (find _ _) as [x|] eqn:Ex.
      * intros [= _ <-]. right. right. exists (TransactionDB.id x).
        cbn. rewrite Hdb. reflexivity.
      * intros [= _ <-]. left. exact Hdb.
    + intros [= _ <-]. left. exact Hdb.
    + intros [= _ <-]. left. exact Hdb.
Qed.

Lemma step_well_formed (w w' : world) :
  well_formed (db w) -> step w w' -> well_formed (db w').
Proof.
  intros [Hui Hun Hti Ho Hd] Hs.
  destruct Hs as [salt user w w' r H|t payload w w' r H|t req a w w' r H].
  - revert H. unfold register. unfold_store. cbn -[next_id].
    fold (by_name (UserCreate.username user)).
    destruct (find (by_name (UserCreate.username user)) (users (db w)))
      eqn:Ef;
      [|destruct (Py.has_nul _)]; intros [= _ <-]; cbn -[next_id];
      [constructor; assumption|constructor; assumption|].
    constructor; cbn -[next_id]; try assumption.
    + rewrite map_app. apply NoDup_snoc; [exact Hui|].
      apply next_id_fresh.
    + rewrite map_app. apply NoDup_snoc; [exact Hun|].
      intros Hin. apply in_map_iff in Hin as (u & Hn & Hin).
      apply (proj1 (find_by_name_none _ _) Ef). exists u. auto.
    + intros x Hx. destruct (Ho x Hx) as (u & Hin & Hid).
      exists u. split; [apply in_or_app; left; exact Hin|exact Hid].
  - apply login_keeps_users in H as Hu. revert H.
    unfold login. unfold_store. cbn.
    destruct (find _ (users (db w)));
      [destruct (negb _)|]; intros [= _ <-]; constructor; assumption.
  - apply serve_store in H
      as [->|[(u & row & Hin & -> & Hid & Hown & Htz)|(tx_id & ->)]].
    + constructor; assumption.
    + constructor; cbn; try assumption.
      * rewrite map_app. apply NoDup_snoc; [exact Hti|].
        cbn. rewrite Hid. apply next_id_fresh.
      * intros x Hx. apply in_app_or in Hx as [Hx|[<-|[]]];
          [exact (Ho x Hx)|]. exists u. auto.
      * intros x Hx. apply in_app_or in Hx as [Hx|[<-|[]]];
          [exact (Hd x Hx)|exact Htz].
    + constructor; cbn; try assumption.
      * apply NoDup_map_filter. exact Hti.
      * intros x Hx. apply filter_In in Hx as [Hx _]. exact (Ho x Hx).
      * intros x Hx. apply filter_In in Hx as [Hx _]. exact (Hd x Hx).
Qed.

Lemma reachable_well_formed (w : world) :
  reachable w -> well_formed (db w).
Proof.
  induction 1 as [events|w w' _ IH Hs].
  - constructor; cbn; try constructor; intros r [].
  - exact (step_well_formed IH Hs).
Qed.

(** X6.  In every store the service can reach, no two users share an id
    and no two users share a name. *)
Theorem reachable_users_unique (w : world) :
  reachable w ->
  NoDup (map UserDB.id (users (db w))) /\
  NoDup (map UserDB.username (users (db w))).
Proof.
  intros H. apply reachable_well_formed in H as [Hui Hun _ _ _]. auto.
Qed.

(** X7.  In every store the service can reach, no two transactions
    share an id, and the owner of every transaction is a user of the
    store. *)
Theorem reachable_transactions_owned (w : world) :
  reachable w ->
  NoDup (map TransactionDB.id (transactions (db w))) /\
  forall r, In r (transactions (db w)) ->
            exists u, In u (users (db w)) /\
                      UserDB.id u = TransactionDB.owner_id r.
Proof.
  intros H. apply reachable_well_formed in H as [_ _ Hti Ho _]. auto.
Qed.

(** X8.  In every store the service can reach, no transaction's date
    carries an offset: whatever offset the handler attached, the table
    holds the wall-clock reading alone. *)
Theorem reachable_dates_have_no_offset (w : world) :
  reachable w ->
  forall r, In r (transactions (db w)) ->
            Py.tzinfo (TransactionDB.date r) = None.
Proof.
  intros H. apply reachable_well_formed in H as [_ _ _ _ Hd]. exact Hd.
Qed.

(** ** Adding, deleting and reading together *)

Lemma NoDup_map_In_eq {A B : Type} (f : A -> B) (l : list A) (x y : A) :
  NoDup (map f l) -> In x l -> In y l -> f x = f y -> x = y.
Proof.
  induction l as [|z l IH]; cbn; [contradiction|].
  intros Hn Hx Hy Hf. inversion Hn as [|? ? Hz Hl]; subst.
  destruct Hx as [->|Hx], Hy as [->|Hy]; auto.
  - exfalso. apply Hz. rewrite Hf. apply in_map. exact Hy.
  - exfalso. apply Hz. rewrite <- Hf. apply in_map. exact Hx.
Qed.

Lemma filter_same {A : Type} (p q : A -> bool) (l : list A) :
  (forall x, In x l -> p x = true -> q x = true) ->
  filter p (filter q l) = filter p l.
Proof.
  intros H. induction l as [|x l IH]; cbn; [reflexivity|].
  assert (IH' : filter p (filter q l) = filter p l)
    by (apply IH; intros y Hy; apply H; right; exact Hy).
  destruct (q x) eqn:Eq; cbn.
  - rewrite IH'. reflexivity.
  - destruct (p x) eqn:Ep; [|exact IH'].
    rewrite (H x (or_introl eq_refl) Ep) in Eq. discriminate Eq.
Qed.

(** What a read route answers to user [u], from the rows of [u]. *)
Definition read_answer (req : protected_request)
    (rows : list TransactionDB.t) : response :=
  match req with
  | GetSummary =>
      let total (ty : string) :=
        Py.round_2
          (Py.sum (map TransactionDB.amount
                     (filter (fun r => String.eqb (TransactionDB.type r) ty)
                             rows))) in
      Summarized
        {| SummaryResponse.total_income :=
             Py.to_float (total "income"%string);
           SummaryResponse.total_expense :=
             Py.to_float (total "expense"%string);
           SummaryResponse.net_balance :=
             Py.to_float
               (Py.round_2 (Py.sub (total "income"%string)
                                   (total "expense"%string))) |}
  | GetExportCsv =>
      Exported
        {| StreamingResponse.body := iter_csv (order_by_date_desc rows);
           StreamingResponse.media_type := "text/csv";
           StreamingResponse.content_disposition :=
             "attachment; filename=transactions.csv" |}
  | _ => Listed (order_by_date_desc rows)
  end.

Lemma serve_reads_run (t : Z) (req : protected_request)
    (a : option string) (w w' : world) (u : UserDB.t) :
  reads_only req = true ->
  require_user t a w = (inr u, w') ->
  serve environ_SECRET_KEY t req a w
  = (inr (read_answer req (owned_by u w)), after [Query] w').
Proof.
  intros Hread H. pose proof (require_user_db _ _ _ _ H) as Hdb.
  unfold owned_by. rewrite <- Hdb.
  destruct req; try discriminate Hread;
    unfold_routes; rewrite H; unfold_store; reflexivity.
Qed.

(** What a read route answers depends on the users table and on the
    caller's own rows only. *)
Lemma serve_reads_same (t : Z) (req : protected_request)
    (a : option string) (w1 w2 : world) :
  reads_only req = true ->
  users (db w1) = users (db w2) ->
  (forall u, fst (require_user t a w2) = inr u ->
             owned_by u w1 = owned_by u w2) ->
  fst (serve environ_SECRET_KEY t req a w1)
  = fst (serve environ_SECRET_KEY t req a w2).
Proof.
  intros Hread Hu Hrows.
  pose proof (require_user_same_users t a _ _ Hu) as Hsame.
  destruct (require_user t a w1) as [[e1|u1] w1'] eqn:E1;
    destruct (require_user t a w2) as [[e2|u2] w2'] eqn:E2;
    cbn in Hsame; try discriminate Hsame; injection Hsame as <-.
  - rewrite (serve_unauthorized _ _ req _ _ E1),
            (serve_unauthorized _ _ req _ _ E2). reflexivity.
  - erewrite serve_reads_run; [|exact Hread|exact E1].
    erewrite serve_reads_run; [|exact Hread|exact E2].
    cbn. rewrite (Hrows u1 eq_refl). reflexivity.
Qed.

(** X9.  With no id used twice, deleting a row of the caller's by its
    id (an SQLite integer, as the ids of a table are) succeeds and takes
    exactly that row out of the table: the rows before and after it
    stay, in order, and so the rows of every other user are what they
    were. *)
Theorem delete_removes_one (t tx_id : Z) (a : option string)
    (w w' : world) (u : UserDB.t) (r : TransactionDB.t) :
  require_user t a w = (inr u, w') ->
  NoDup (map TransactionDB.id (transactions (db w))) ->
  sqlite_integer tx_id = true ->
  In r (transactions (db w)) ->
  TransactionDB.id r = tx_id ->
  TransactionDB.owner_id r = UserDB.id u ->
  exists w'' before later,
    delete_transaction_protected environ_SECRET_KEY t tx_id a w
      = (inr ("success"%string,
              ("Transaction " ++ Py.str_int tx_id ++ " deleted")%string),
         w'') /\
    transactions (db w) = before ++ r :: later /\
    transactions (db w'') = before ++ later /\
    users (db w'') = users (db w) /\
    forall v, UserDB.id v <> UserDB.id u -> owned_by v w'' = owned_by v w.
Proof.
  intros H Hn Hid64 Hin Hid Ho.
  pose proof (require_user_db _ _ _ _ H) as Hdb.
  destruct (in_split _ _ Hin) as (before & later & Hsplit).
  assert (Hrest : forall x, In x (before ++ later) ->
                            negb (TransactionDB.id x =? tx_id) = true).
  { intros x Hx. apply negb_true_iff, Z.eqb_neq. intros Hx'.
    rewrite Hsplit, map_app in Hn. cbn in Hn.
    apply NoDup_remove_2 in Hn. apply Hn.
    rewrite <- map_app, Hid, <- Hx'. apply in_map. exact Hx. }
  assert (Hfilter :
            filter (fun x => negb (TransactionDB.id x =? tx_id))
                   (transactions (db w)) = before ++ later).
  { rewrite Hsplit, filter_app. cbn. rewrite Hid, Z.eqb_refl. cbn.
    rewrite <- filter_app. apply forallb_filter_id.
    apply forallb_forall. exact Hrest. }
  pose proof (find_owned u tx_id w) as Hf.
  unfold delete_transaction_protected, bind. rewrite H.
  unfold_store. rewrite Hid64. cbn. rewrite <- Hdb in Hf.
  destruct (find _ (transactions (db w'))) as [x|].
  - destruct Hf as [Hx _]. rewrite Hx.
    eexists. exists before, later. split; [reflexivity|]. cbn.
    rewrite Hdb. split; [exact Hsplit|]. split; [exact Hfilter|].
    split; [reflexivity|].
    intros v Hv. unfold owned_by. cbn. rewrite Hfilter, Hsplit.
    rewrite !filter_app. cbn.
    destruct (TransactionDB.owner_id r =? UserDB.id v) eqn:E;
      [|reflexivity].
    apply Z.eqb_eq in E. congruence.
  - exfalso. apply Hf. exists r. auto.
Qed.

(** X10.  After a successful delete no row has the id any more: every
    later delete of that id, by any authenticated user, is answered
    404. *)
Theorem delete_twice_not_found (t tx_id : Z) (a : option string)
    (w w1 : world) (msg : string * string) :
  delete_transaction_protected environ_SECRET_KEY t tx_id a w
    = (inr msg, w1) ->
  forall t' a' v w1',
    require_user t' a' w1 = (inr v, w1') ->
    delete_transaction_protected environ_SECRET_KEY t' tx_id a' w1
    = (inl (HTTP 404 "Transaction not found"), after [Query] w1').
Proof.
  unfold delete_transaction_protected at 1. unfold bind.
  destruct (require_user t a w) as [[e|u] w0] eqn:E; [discriminate|].
  unfold_store.
  destruct (sqlite_integer tx_id) eqn:Hid64; [|discriminate]. cbn.
  destruct (find _ (transactions (db w0))) as [x|] eqn:Ef; [|discriminate].
  apply find_some in Ef as [_ Hp].
  apply andb_true_iff in Hp as [Hx _]. apply Z.eqb_eq in Hx.
  intros [= _ <-] t' a' v w1' H'.
  pose proof (require_user_db _ _ _ _ H') as Hdb'.
  unfold delete_transaction_protected, bind. rewrite H'.
  unfold_store. rewrite Hid64. cbn.
  destruct (find _ (transactions (db w1'))) as [y|] eqn:Ey; [|reflexivity].
  exfalso. rewrite Hdb' in Ey. cbn in Ey.
  apply find_some in Ey as [Hin Hp].
  apply filter_In in Hin as [_ Hne].
  apply andb_true_iff in Hp as [Hy _].
  rewrite Hx, Hy in Hne. discriminate Hne.
Qed.

(** X11.  A row added by [u] is in every later listing [u] asks for
    (until something else is written): the listing is the new row and
    the rows [u] had, ordered by stored date, the largest wall-clock
    reading first. *)
Theorem added_row_is_listed (t t_now : Z) (tx : TransactionCreate.t)
    (a : option string) (w w0 w1 : world) (u : UserDB.t)
    (row : TransactionDB.t) :
  require_user t a w = (inr u, w0) ->
  add_transaction_protected environ_SECRET_KEY t t_now tx a w
    = (inr row, w1) ->
  forall t' a' w1',
    require_user t' a' w1 = (inr u, w1') ->
    exists rows,
      get_transactions_protected environ_SECRET_KEY t' a' w1
        = (inr rows, after [Query] w1') /\
      In row rows /\
      Permutation rows (row :: owned_by u w) /\
      StronglySorted
        (fun x y => Py.wall (TransactionDB.date y)
                    <= Py.wall (TransactionDB.date x)) rows.
Proof.
  intros H Hadd t' a' w1' H'.
  pose proof (require_user_db _ _ _ _ H) as Hdb.
  pose proof (require_user_db _ _ _ _ H') as Hdb'.
  revert Hadd. unfold add_transaction_protected, bind. rewrite H.
  unfold add_tx. destruct (PrimFloat.is_nan _); [discriminate|].
  intros [= Hrow Hw1].
  assert (Hown : TransactionDB.owner_id row = UserDB.id u)
    by (rewrite <- Hrow; reflexivity).
  assert (Htx : transactions (db w1) = transactions (db w) ++ [row]).
  { rewrite <- Hw1, <- Hrow. cbn -[next_id]. rewrite Hdb. reflexivity. }
  unfold get_transactions_protected, bind. rewrite H'.
  unfold_store. cbn.
  eexists. split; [reflexivity|].
  assert (Hperm : Permutation
                    (order_by_date_desc
                       (filter (fun r => TransactionDB.owner_id r
                                         =? UserDB.id u)
                               (transactions (db w1'))))
                    (row :: owned_by u w)).
  { rewrite order_by_date_desc_perm, Hdb', Htx, filter_app. cbn.
    rewrite Hown, Z.eqb_refl. unfold owned_by.
    symmetry. apply Permutation_cons_append. }
  split; [|split; [exact Hperm|exact (order_by_date_desc_sorted _)]].
  eapply Permutation_in; [symmetry; exact Hperm|]. left. reflexivity.
Qed.

(** X12.  With no id used twice, nothing a user does through a protected
    route changes what another user reads: listing, summary and export
    of [v] answer the same before and after any request of [u]. *)
Theorem other_users_unaffected (t : Z) (req : protected_request)
    (a : option string) (w w0 w1 : world) (u : UserDB.t)
    (r : HTTPException + response) :
  NoDup (map TransactionDB.id (transactions (db w))) ->
  require_user t a w = (inr u, w0) ->
  serve environ_SECRET_KEY t req a w = (r, w1) ->
  forall t' a' req' v,
    reads_only req' = true ->
    fst (require_user t' a' w) = inr v ->
    UserDB.id v <> UserDB.id u ->
    fst (serve environ_SECRET_KEY t' req' a' w1)
    = fst (serve environ_SECRET_KEY t' req' a' w).
Proof.
  intros Hn H Hs t' a' req' v Hread Hv Hne.
  pose proof (require_user_db _ _ _ _ H) as Hdb.
  apply serve_reads_same;
    [exact Hread|eapply serve_keeps_users; exact Hs|].
  intros v' Hv'. rewrite Hv in Hv'. injection Hv' as <-.
  revert Hs. destruct req; unfold_routes; rewrite H; unfold_store; cbn.
  - destruct (PrimFloat.is_nan _);
      [intros [= _ <-]; unfold owned_by; rewrite Hdb; reflexivity|].
    intros [= _ <-]. unfold owned_by. cbn. rewrite Hdb, filter_app. cbn.
    destruct (UserDB.id u =? UserDB.id v) eqn:E;
      [apply Z.eqb_eq in E; congruence|]. apply app_nil_r.
  - intros [= _ <-]. unfold owned_by. cbn. rewrite Hdb. reflexivity.
  - destruct (sqlite_integer tx_id); cbn;
      [|intros [= _ <-]; unfold owned_by; rewrite Hdb; reflexivity].
    rewrite Hdb.
    destruct (find _ (transactions (db w))) as [x|] eqn:Ex;
      intros [= _ <-]; unfold owned_by; cbn; rewrite ?Hdb;
      [|reflexivity].
    apply find_some in Ex as [Hin Hp].
    apply andb_true_iff in Hp as [_ Hxo]. apply Z.eqb_eq in Hxo.
    apply filter_same. intros y Hy Hyo. apply Z.eqb_eq in Hyo.
    apply negb_true_iff, Z.eqb_neq. intros Hid.
    assert (y = x) by (eapply NoDup_map_In_eq; eassumption).
    subst y. congruence.
  - intros [= _ <-]. unfold owned_by. cbn. rewrite Hdb. reflexivity.
  - intros [= _ <-]. unfold owned_by. cbn. rewrite Hdb. reflexivity.
Qed.

(** X13.  The summary counts a row only under the exact type strings
    "income" and "expense": after a row of any other type is added, every
    summary is what it was before. *)
Theorem other_types_not_summed (t t_now : Z) (tx : TransactionCreate.t)
    (a : option string) (w w0 w1 : world) (u : UserDB.t)
    (row : TransactionDB.t) :
  String.eqb (TransactionCreate.type tx) "income" = false ->
  String.eqb (TransactionCreate.type tx) "expense" = false ->
  require_user t a w = (inr u, w0) ->
  add_transaction_protected environ_SECRET_KEY t t_now tx a w
    = (inr row, w1) ->
  forall t' a',
    fst (serve environ_SECRET_KEY t' GetSummary a' w1)
    = fst (serve environ_SECRET_KEY t' GetSummary a' w).
Proof.
  intros Hi He H Hadd t' a'.
  pose proof (require_user_db _ _ _ _ H) as Hdb.
  revert Hadd. unfold add_transaction_protected, bind. rewrite H.
  unfold add_tx. destruct (PrimFloat.is_nan _); [discriminate|].
  intros [= Hrow Hw1].
  assert (Hu : users (db w1) = users (db w))
    by (rewrite <- Hw1; cbn; rewrite Hdb; reflexivity).
  assert (Htx : transactions (db w1) = transactions (db w) ++ [row])
    by (rewrite <- Hw1, <- Hrow; cbn -[next_id]; rewrite Hdb;
        reflexivity).
  assert (Hty : TransactionDB.type row = TransactionCreate.type tx)
    by (rewrite <- Hrow; reflexivity).
  pose proof (require_user_same_users t' a' _ _ Hu) as Hsame.
  destruct (require_user t' a' w1) as [[e1|v1] w1'] eqn:E1;
    destruct (require_user t' a' w) as [[e2|v2] w2'] eqn:E2;
    cbn in Hsame; try discriminate Hsame; injection Hsame as <-.
  - rewrite (serve_unauthorized _ _ GetSummary _ _ E1),
            (serve_unauthorized _ _ GetSummary _ _ E2). reflexivity.
  - erewrite serve_reads_run; [|reflexivity|exact E1].
    erewrite serve_reads_run; [|reflexivity|exact E2].
    cbn [fst read_answer]. unfold owned_by. rewrite Htx, filter_app.
    cbn [filter].
    destruct (TransactionDB.owner_id row =? UserDB.id v1);
      [|rewrite app_nil_r; reflexivity].
    rewrite !filter_app. cbn [filter]. rewrite Hty, Hi, He.
    rewrite !app_nil_r. reflexivity.
Qed.

(** ** Headers and tokens at the edges *)

(** X14.  The header is read by words: any white space before, between
    and after the scheme and the token, and any letter case of the
    scheme, lead to the same token check as "Bearer <token>". *)
Theorem header_spacing_and_case (t : Z) (p1 scheme p2 token p3 : string) :
  blank p1 = true -> blank p2 = true -> p2 <> EmptyString ->
  blank p3 = true ->
  Py.one_word scheme = true -> Py.one_word token = true ->
  Py.lower scheme = "bearer"%string ->
  require_user t (Some (p1 ++ scheme ++ p2 ++ token ++ p3)%string)
  = get_current_user_from_token environ_SECRET_KEY t token.
Proof.
  intros H1 H2 Hne H3 Hs Ht Hl.
  rewrite require_user_bearer. unfold bearer_token.
  rewrite split_two_words by assumption. rewrite Hl. reflexivity.
Qed.

(** X15.  [create_access_token] honours an explicit lifetime, except a
    lifetime of zero, which it takes for none given: the token then
    lasts the seven days of the default. *)
Theorem access_token_lifetime (t d : Z) (data : Jose.payload) :
  d <> 0 ->
  Jose.verify (create_access_token environ_SECRET_KEY t data (Some d)) key
  = Some {| Jose.sub := Jose.p_sub data;
            Jose.exp := Some ((t + d) / 1000000) |} /\
  create_access_token environ_SECRET_KEY t data (Some 0)
  = create_access_token environ_SECRET_KEY t data None /\
  Jose.verify (create_access_token environ_SECRET_KEY t data (Some 0)) key
  = Some {| Jose.sub := Jose.p_sub data;
            Jose.exp := Some (Py.timegm (Py.utcnow t) + seven_days) |}.
Proof.
  intros Hd. split; [|split].
  - unfold create_access_token, Jose.encode. rewrite Jose.verify_sign.
    apply Z.eqb_neq in Hd. rewrite Hd.
    cbn [option_map Jose.p_sub Jose.p_exp]. do 3 f_equal.
    unfold Py.timegm, Py.add_delta, Py.utcnow. cbn [Py.wall Py.tzinfo].
    rewrite Z.sub_0_r. reflexivity.
  - reflexivity.
  - apply create_access_token_claims.
Qed.

(** X16.  A bearer token whose signature does not verify under the
    service's key is answered 401 on every protected route, before any
    table is read. *)
Theorem unverified_token_rejected (t : Z) (req : protected_request)
    (a : option string) (token : string) (w : world) :
  bearer_token a = Some token ->
  Jose.verify token key = None ->
  serve environ_SECRET_KEY t req a w
  = (inl (HTTP 401 "Could not validate credentials"), after [JwtDecode] w).
Proof.
  intros Hb Hv. apply serve_unauthorized.
  rewrite require_user_bearer, Hb, get_current_user_from_token_run.
  unfold Jose.decode. rewrite Hv. reflexivity.
Qed.

(** X17.  The token check does not ask for an expiry: a correctly
    signed token with no "exp" claim, whose subject is a user's name,
    authenticates as that user at every instant. *)
Theorem token_without_expiry_accepted (a : option string) (token : string)
    (c : Jose.claims) (u : UserDB.t) (w : world) :
  bearer_token a = Some token ->
  Jose.verify token key = Some c ->
  Jose.exp c = None ->
  Jose.sub c = Some (UserDB.username u) ->
  UserDB.username u <> EmptyString ->
  find (by_name (UserDB.username u)) (users (db w)) = Some u ->
  forall t,
    require_user t a w = (inr u, after [Query; JwtDecode] w).
Proof.
  intros Hb Hv He Hs Hne Hf t.
  rewrite require_user_bearer, Hb, get_current_user_from_token_run.
  unfold Jose.decode. rewrite Hv, He, Hs.
  destruct (UserDB.username u) as [|x name] eqn:En; [congruence|].
  fold (by_name (String x name)). rewrite Hf. reflexivity.
Qed.

(** X18.  The row [POST /tx/add] stores gets an id no row of the table
    has, belongs to the caller, and goes at the end of the table, the
    users being left alone; of a date that comes with an offset the
    wall-clock reading is stored as it came (it is not moved to +05:30)
    and the offset is not stored. *)
Theorem added_row_fresh_and_owned (t t_now : Z) (tx : TransactionCreate.t)
    (a : option string) (w w0 w1 : world) (u : UserDB.t)
    (row : TransactionDB.t) :
  require_user t a w = (inr u, w0) ->
  add_transaction_protected environ_SECRET_KEY t t_now tx a w
    = (inr row, w1) ->
  ~ In (TransactionDB.id row)
       (map TransactionDB.id (transactions (db w))) /\
  TransactionDB.owner_id row = UserDB.id u /\
  transactions (db w1) = transactions (db w) ++ [row] /\
  users (db w1) = users (db w) /\
  forall d off,
    TransactionCreate.date tx = Some d -> Py.tzinfo d = Some off ->
    TransactionDB.date row = {| Py.wall := Py.wall d; Py.tzinfo := None |}.
Proof.
  intros H. pose proof (require_user_db _ _ _ _ H) as Hdb.
  unfold add_transaction_protected, bind. rewrite H.
  unfold add_tx. destruct (PrimFloat.is_nan _); [discriminate|].
  intros [= <- <-]. cbn -[next_id]. rewrite Hdb.
  split; [apply next_id_fresh|]. repeat split.
  intros d off -> ->. reflexivity.
Qed.

End Routes.

(* ================================================================== *)
(** * The worked session, continued *)
(* ================================================================== *)

Module Tour.
Import Instances Session.

Definition bob_row : UserDB.t :=
  {| UserDB.id := 2; UserDB.username := "bob";
     UserDB.hashed_password := "builder" |}.

(** The store in which only Alice has registered. *)
Definition alice_only : world := snd (register "s1" alice empty).

Lemma reachable_after_register (salt : string) (user : UserCreate.t)
    (w : world) :
  reachable None w -> reachable None (snd (register salt user w)).
Proof.
  intros H. eapply reachable_step; [exact H|].
  eapply step_register. apply surjective_pairing.
Qed.

Lemma reachable_after_add (t t_now : Z) (tx : TransactionCreate.t)
    (a : option string) (w : world) :
  reachable None w ->
  reachable None (snd (add_transaction_protected None t t_now tx a w)).
Proof.
  intros H.
  assert (E : snd (serve None t (PostTxAdd t_now tx) a w)
              = snd (add_transaction_protected None t t_now tx a w)).
  { unfold serve, fmap, bind.
    destruct (add_transaction_protected None t t_now tx a w)
      as [[e|r] w']; reflexivity. }
  rewrite <- E. eapply reachable_step; [exact H|].
  eapply step_serve. apply surjective_pairing.
Qed.

Lemma ledger_reachable : reachable None ledger.
Proof.
  unfold ledger, registered.
  do 3 apply reachable_after_add. do 2 apply reachable_after_register.
  apply (reachable_start None []).
Qed.

Lemma ledger_ids_unique :
  NoDup (map TransactionDB.id (transactions (db ledger))).
Proof. exact (wf_tx_ids (reachable_well_formed ledger_reachable)). Qed.

Lemma alice_reads_ledger :
  require_user_from_header None (t0 + day) alice_header ledger
  = (inr alice_row, authenticated ledger).
Proof. vm_compute. reflexivity. Qed.



Lemma register_twice_refused_witness :
  register "s1" alice empty = (inr (1, "alice"%string), alice_only) /\
  register "s9"
    {| UserCreate.username := "alice"; UserCreate.password := "other" |}
    ledger
  = (inl (HTTP 400 "Username already exists"), after [Query] ledger).
Proof.
  assert (Hreg : register "s1" alice empty
                 = (inr (1, "alice"%string), alice_only))
    by (vm_compute; reflexivity).
  assert (Hx : users_extend alice_only ledger).
  { exists [bob_row]. vm_compute. reflexivity. }
  split; [exact Hreg|].
  exact (register_twice_refused "s1" alice empty Hreg "s9" "other" Hx).
Defined.

Lemma login_succeeds_iff_witness :
  find (by_name "alice") (users (db ledger)) = Some alice_row /\
  verify_password "wonderland" (UserDB.hashed_password alice_row) = true /\
  exists resp w', login None t0 alice ledger = (inr resp, w').
Proof.
  assert (Hf : find (by_name (UserCreate.username alice)) (users (db ledger))
               = Some alice_row) by (vm_compute; reflexivity).
  assert (Hv : verify_password (UserCreate.password alice)
                 (UserDB.hashed_password alice_row) = true)
    by (vm_compute; reflexivity).
  split; [exact Hf|]. split; [exact Hv|].
  apply (proj2 (proj1 (login_succeeds_iff None t0 alice ledger))).
  exists alice_row. split; [exact Hf|exact Hv].
Defined.

(** Alice asks to delete Bob's row. *)
Lemma errors_leave_store_witness :
  serve None (t0 + day) (DeleteTransaction 2) alice_header ledger
    = (inl (HTTP 404 "Transaction not found"),
       after [Query] (authenticated ledger)) /\
  db (after [Query] (authenticated ledger)) = db ledger.
Proof.
  assert (E : serve None (t0 + day) (DeleteTransaction 2) alice_header
                ledger
              = (inl (HTTP 404 "Transaction not found"),
                 after [Query] (authenticated ledger)))
    by (vm_compute; reflexivity).
  split; [exact E|].
  exact (proj1 (errors_leave_store None) _ _ _ _ _ _ E).
Defined.

Lemma reads_leave_store_witness :
  reads_only GetExportCsv = true /\
  db (snd (serve None (t0 + day) GetExportCsv alice_header ledger))
    = db ledger /\
  db (snd (login None t0 alice ledger)) = db ledger.
Proof.
  split; [reflexivity|]. split.
  - exact (proj1 (proj1 (reads_leave_store None) _ GetExportCsv _ _ _ _
                        eq_refl (surjective_pairing _))).
  - exact (proj1 (proj2 (reads_leave_store None) t0 alice ledger _ _
                        (surjective_pairing _))).
Defined.

Lemma reachable_users_unique_witness :
  reachable None ledger /\
  NoDup (map UserDB.id (users (db ledger))) /\
  NoDup (map UserDB.username (users (db ledger))).
Proof.
  split; [exact ledger_reachable|].
  exact (reachable_users_unique ledger_reachable).
Defined.

Lemma reachable_transactions_owned_witness :
  reachable None ledger /\
  NoDup (map TransactionDB.id (transactions (db ledger))) /\
  exists u, In u (users (db ledger)) /\
            UserDB.id u = TransactionDB.owner_id rent_row.
Proof.
  split; [exact ledger_reachable|].
  destruct (reachable_transactions_owned ledger_reachable) as [Hn Ho].
  split; [exact Hn|]. apply Ho.
  vm_compute. right. right. left. reflexivity.
Defined.

Lemma reachable_dates_have_no_offset_witness :
  reachable None ledger /\
  In rent_row (transactions (db ledger)) /\
  Py.tzinfo (TransactionDB.date rent_row) = None.
Proof.
  assert (Hin : In rent_row (transactions (db ledger)))
    by (vm_compute; right; right; left; reflexivity).
  split; [exact ledger_reachable|]. split; [exact Hin|].
  exact (reachable_dates_have_no_offset ledger_reachable rent_row Hin).
Defined.

Lemma delete_removes_one_witness :
  require_user_from_header None (t0 + day) alice_header ledger
    = (inr alice_row, authenticated ledger) /\
  sqlite_integer 3 = true /\
  In rent_row (transactions (db ledger)) /\
  exists w'',
    delete_transaction_protected None (t0 + day) 3 alice_header ledger
      = (inr ("success"%string, "Transaction 3 deleted"%string), w'') /\
    owned_by bob_row w'' = owned_by bob_row ledger.
Proof.
  assert (Hin : In rent_row (transactions (db ledger)))
    by (vm_compute; right; right; left; reflexivity).
  split; [exact alice_reads_ledger|]. split; [reflexivity|].
  split; [exact Hin|].
  destruct (delete_removes_one None (t0 + day) (tx_id := 3) alice_header
              ledger rent_row alice_reads_ledger ledger_ids_unique eq_refl
              Hin eq_refl eq_refl)
    as (w'' & before & later & E & _ & _ & _ & Hothers).
  exists w''. split; [exact E|]. apply Hothers. discriminate.
Defined.

(** The store after Alice has deleted her rent. *)
Definition rent_deleted : world :=
  snd (delete_transaction_protected None (t0 + day) 3 alice_header ledger).

Lemma delete_twice_not_found_witness :
  delete_transaction_protected None (t0 + day) 3 alice_header ledger
    = (inr ("success"%string, "Transaction 3 deleted"%string),
       rent_deleted) /\
  delete_transaction_protected None (t0 + day) 3 alice_header rent_deleted
    = (inl (HTTP 404 "Transaction not found"),
       after [Query] (authenticated rent_deleted)).
Proof.
  assert (E : delete_transaction_protected None (t0 + day) 3 alice_header
                ledger
              = (inr ("success"%string, "Transaction 3 deleted"%string),
                 rent_deleted)) by (vm_compute; reflexivity).
  assert (H : require_user_from_header None (t0 + day) alice_header
                rent_deleted
              = (inr alice_row, authenticated rent_deleted))
    by (vm_compute; reflexivity).
  split; [exact E|].
  exact (delete_twice_not_found None (t0 + day) 3 alice_header ledger E
           (t0 + day) alice_header H).
Defined.

Lemma added_row_is_listed_witness :
  require_user_from_header None (t0 + hour) alice_header registered
    = (inr alice_row, authenticated registered) /\
  exists row w1 rows,
    add_transaction_protected None (t0 + hour) (t0 + hour) salary
      alice_header registered = (inr row, w1) /\
    get_transactions_protected None (t0 + 2 * hour) alice_header w1
      = (inr rows, after [Query] (authenticated w1)) /\
    In row rows.
Proof.
  assert (H : require_user_from_header None (t0 + hour) alice_header
                registered = (inr alice_row, authenticated registered))
    by (vm_compute; reflexivity).
  split; [exact H|].
  pose (w1 := snd (add_transaction_protected None (t0 + hour) (t0 + hour)
                     salary alice_header registered)).
  pose (row := {| TransactionDB.id := 1;
                  TransactionDB.title := "salary";
                  TransactionDB.amount := TransactionCreate.amount salary;
                  TransactionDB.type := "income";
                  TransactionDB.category := None;
                  TransactionDB.date :=
                    {| Py.wall := t0 + hour + IST; Py.tzinfo := None |};
                  TransactionDB.owner_id := 1 |}).
  assert (E : add_transaction_protected None (t0 + hour) (t0 + hour) salary
                alice_header registered = (inr row, w1))
    by (vm_compute; reflexivity).
  assert (H' : require_user_from_header None (t0 + 2 * hour) alice_header w1
               = (inr alice_row, authenticated w1))
    by (vm_compute; reflexivity).
  destruct (added_row_is_listed None (t0 + hour) (t0 + hour) salary
              alice_header registered H E (t0 + 2 * hour) alice_header H')
    as (rows & El & Hin & _).
  exists row, w1, rows. split; [exact E|]. split; [exact El|exact Hin].
Defined.

(** Alice deletes her rent; Bob's summary does not move. *)
Lemma other_users_unaffected_witness :
  NoDup (map TransactionDB.id (transactions (db ledger))) /\
  require_user_from_header None (t0 + day) alice_header ledger
    = (inr alice_row, authenticated ledger) /\
  fst (require_user_from_header None (t0 + day) bob_header ledger)
    = inr bob_row /\
  fst (serve None (t0 + day) GetSummary bob_header rent_deleted)
    = fst (serve None (t0 + day) GetSummary bob_header ledger).
Proof.
  assert (Hb : fst (require_user_from_header None (t0 + day) bob_header
                      ledger) = inr bob_row) by (vm_compute; reflexivity).
  assert (Hs : serve None (t0 + day) (DeleteTransaction 3) alice_header
                 ledger
               = (inr (Deleted "success" "Transaction 3 deleted"),
                  rent_deleted)) by (vm_compute; reflexivity).
  split; [exact ledger_ids_unique|]. split; [exact alice_reads_ledger|].
  split; [exact Hb|].
  refine (other_users_unaffected None (t0 + day) (DeleteTransaction 3)
            alice_header ledger ledger_ids_unique alice_reads_ledger Hs
            (t0 + day) bob_header GetSummary eq_refl Hb _).
  discriminate.
Defined.

(** A row whose type is spelled with a capital. *)
Definition bonus : TransactionCreate.t :=
  {| TransactionCreate.title := "bonus";
     TransactionCreate.amount := 1000%float;
     TransactionCreate.type := "Income";
     TransactionCreate.category := None;
     TransactionCreate.date :=
       Some {| Py.wall := t0 + 5 * hour; Py.tzinfo := Some 0 |} |}.

Definition bonus_row : TransactionDB.t :=
  {| TransactionDB.id := 4;
     TransactionDB.title := "bonus";
     TransactionDB.amount := 1000%float;
     TransactionDB.type := "Income";
     TransactionDB.category := None;
     TransactionDB.date := {| Py.wall := t0 + 5 * hour; Py.tzinfo := None |};
     TransactionDB.owner_id := 1 |}.

Definition with_bonus : world :=
  snd (add_transaction_protected None (t0 + day) (t0 + day) bonus
         alice_header ledger).

Lemma alice_adds_bonus :
  add_transaction_protected None (t0 + day) (t0 + day) bonus alice_header
    ledger = (inr bonus_row, with_bonus).
Proof. vm_compute. reflexivity. Qed.

Lemma other_types_not_summed_witness :
  String.eqb (TransactionCreate.type bonus) "income" = false /\
  String.eqb (TransactionCreate.type bonus) "expense" = false /\
  add_transaction_protected None (t0 + day) (t0 + day) bonus alice_header
    ledger = (inr bonus_row, with_bonus) /\
  fst (serve None (t0 + 2 * day) GetSummary alice_header with_bonus)
    = fst (serve None (t0 + 2 * day) GetSummary alice_header ledger).
Proof.
  split; [reflexivity|]. split; [reflexivity|].
  split; [exact alice_adds_bonus|].
  exact (other_types_not_summed None (t0 + day) (t0 + day) bonus
           alice_header ledger eq_refl eq_refl alice_reads_ledger
           alice_adds_bonus (t0 + 2 * day) alice_header).
Defined.

Lemma added_row_fresh_and_owned_witness :
  add_transaction_protected None (t0 + day) (t0 + day) bonus alice_header
    ledger = (inr bonus_row, with_bonus) /\
  ~ In (TransactionDB.id bonus_row)
       (map TransactionDB.id (transactions (db ledger))) /\
  TransactionDB.date bonus_row
    = {| Py.wall := t0 + 5 * hour; Py.tzinfo := None |}.
Proof.
  split; [exact alice_adds_bonus|].
  destruct (added_row_fresh_and_owned None (t0 + day) (t0 + day) bonus
              alice_header ledger alice_reads_ledger alice_adds_bonus)
    as (Hfresh & _ & _ & _ & Hdate).
  split; [exact Hfresh|]. exact (Hdate _ 0 eq_refl eq_refl).
Defined.

(** Two spaces, the scheme in mixed case, a tab and a space, the token,
    a space. *)
Definition loose_header : string :=
  ("  " ++ "bEaReR" ++ String "009" " " ++ token_of t0 alice registered
        ++ " ")%string.

Lemma header_spacing_and_case_witness :
  Py.lower "bEaReR" = "bearer"%string /\
  Py.one_word (token_of t0 alice registered) = true /\
  require_user_from_header None (t0 + day) (Some loose_header)
  = get_current_user_from_token None (t0 + day)
      (token_of t0 alice registered).
Proof.
  assert (Hw : Py.one_word (token_of t0 alice registered) = true)
    by (vm_compute; reflexivity).
  split; [reflexivity|]. split; [exact Hw|].
  refine (header_spacing_and_case None (t0 + day) "  " "bEaReR"
            (p2 := String "009" " ") (token_of t0 alice registered) " "
            eq_refl eq_refl _ eq_refl eq_refl Hw eq_refl).
  discriminate.
Defined.

Lemma access_token_lifetime_witness :
  hour <> 0 /\
  Jose.verify
    (create_access_token None t0
       {| Jose.p_sub := Some "alice"%string; Jose.p_exp := None |}
       (Some hour))
    (SECRET_KEY None)
  = Some {| Jose.sub := Some "alice"%string;
            Jose.exp := Some ((t0 + hour) / 1000000) |}.
Proof.
  assert (H : hour <> 0) by discriminate.
  split; [exact H|].
  exact (proj1 (access_token_lifetime None t0
                  {| Jose.p_sub := Some "alice"%string;
                     Jose.p_exp := None |} H)).
Defined.

(** A token for Alice signed with a key that is not the service's. *)
Definition forged_token : string :=
  Jose.sign {| Jose.sub := Some "alice"%string; Jose.exp := None |}
            "not the key".

Lemma unverified_token_rejected_witness :
  bearer_token (bearer forged_token) = Some forged_token /\
  Jose.verify forged_token (SECRET_KEY None) = None /\
  serve None (t0 + day) GetTransactions (bearer forged_token) ledger
  = (inl (HTTP 401 "Could not validate credentials"),
     after [JwtDecode] ledger).
Proof.
  assert (Hb : bearer_token (bearer forged_token) = Some forged_token)
    by (vm_compute; reflexivity).
  assert (Hv : Jose.verify forged_token (SECRET_KEY None) = None)
    by (vm_compute; reflexivity).
  split; [exact Hb|]. split; [exact Hv|].
  exact (unverified_token_rejected None (t0 + day) GetTransactions
           (bearer forged_token) ledger Hb Hv).
Defined.

(** A token for Alice signed with the service's key and no expiry. *)
Definition lasting_token : string :=
  Jose.sign {| Jose.sub := Some "alice"%string; Jose.exp := None |}
            (SECRET_KEY None).

Lemma token_without_expiry_accepted_witness :
  bearer_token (bearer lasting_token) = Some lasting_token /\
  Jose.verify lasting_token (SECRET_KEY None)
    = Some {| Jose.sub := Some "alice"%string; Jose.exp := None |} /\
  require_user_from_header None (t0 + 10000 * day) (bearer lasting_token)
    ledger
  = (inr alice_row, authenticated ledger).
Proof.
  assert (Hb : bearer_token (bearer lasting_token) = Some lasting_token)
    by (vm_compute; reflexivity).
  assert (Hv : Jose.verify lasting_token (SECRET_KEY None)
               = Some {| Jose.sub := Some "alice"%string;
                         Jose.exp := None |})
    by (vm_compute; reflexivity).
  assert (Hf : find (by_name (UserDB.username alice_row))
                    (users (db ledger)) = Some alice_row)
    by (vm_compute; reflexivity).
  assert (Hne : UserDB.username alice_row <> EmptyString) by discriminate.
  split; [exact Hb|]. split; [exact Hv|].
  exact (token_without_expiry_accepted None (bearer lasting_token)
           (u := alice_row) ledger Hb Hv eq_refl eq_refl Hne Hf
           (t0 + 10000 * day)).
Defined.

End Tour.
